(** * nilu-api-client: a shallow embedding of [nilu/_NILUClient.py]

    The client builds a URL with a query string, issues one HTTP GET,
    decodes the JSON body into a pandas [DataFrame] and, for two endpoints,
    flattens a nested column.  The Python code is embedded as Rocq functions;
    the pandas, requests and datetime calls it makes are described by small
    executable models of their documented behaviour. *)

From Stdlib Require Import List String Ascii ZArith Bool Lia Arith.
From Stdlib Require Import Numbers.DecimalString.
Import ListNotations.

Local Open Scope list_scope.
Local Open Scope string_scope.

(* ================================================================= *)
(** ** Exceptions and outcomes *)

(** The exception classes the code can meet. [HTTPError] carries the status
    code of the response it was raised for. *)
Inductive exn : Type :=
| KeyError
| ValueError
| AttributeError
| TypeError
| OutOfBoundsDatetime
| JSONDecodeError
| ConnectionError
| HTTPError (status : Z).

(** What a call does: it returns a value, raises an exception, or takes a
    path of a library that this development does not describe
    ([Unmodelled]: pandas' list-of-sequences constructor, dateutil's
    free-form date parser, ...). *)
Inductive outcome (A : Type) : Type :=
| Returns (a : A)
| Raises (e : exn)
| Unmodelled.

Arguments Returns {A} a.
Arguments Raises {A} e.
Arguments Unmodelled {A}.

Definition obind {A B : Type} (m : outcome A) (k : A -> outcome B) : outcome B :=
  match m with
  | Returns a => k a
  | Raises e => Raises e
  | Unmodelled => Unmodelled
  end.

Fixpoint traverse {A B : Type} (f : A -> outcome B) (l : list A) : outcome (list B) :=
  match l with
  | [] => Returns []
  | x :: xs =>
      obind (f x) (fun y => obind (traverse f xs) (fun ys => Returns (y :: ys)))
  end.

(* ================================================================= *)
(** ** Python values passed as keyword arguments *)

Module Py.

(** The scalar values the public operations accept: [None], [str], [bool]
    and [int]. *)
Inductive pyval : Type :=
| PNone
| PStr (s : string)
| PBool (b : bool)
| PInt (n : Z).

Definition is_None (v : pyval) : bool :=
  match v with PNone => true | _ => false end.

Definition Z_to_string (n : Z) : string :=
  NilEmpty.string_of_int (Z.to_int n).

(** [str(v)], which is what an f-string placeholder [{v}] produces. *)
Definition str (v : pyval) : string :=
  match v with
  | PNone => "None"
  | PStr s => s
  | PBool true => "True"
  | PBool false => "False"
  | PInt n => Z_to_string n
  end.

(** [sep.join(l)]. *)
Definition join (sep : string) (l : list string) : string :=
  String.concat sep l.

End Py.
Import Py.

(** Keyword arguments (a Python dict, iterated in call order). *)
Definition kwargs : Type := list (string * pyval).

(* ================================================================= *)
(** ** Query strings *)

(** The list comprehension of [_stringify]:
    [[f"{k}={v}" for k, v in parameters.items() if v is not None]]. *)
Fixpoint stringify_items (items : kwargs) : list string :=
  match items with
  | [] => []
  | (k, v) :: rest =>
      if is_None v then stringify_items rest
      else (k ++ "=" ++ str v) :: stringify_items rest
  end.

(** [_stringify]: the pairs joined with an ampersand. *)
Definition _stringify (parameters : kwargs) : string :=
  join "&" (stringify_items parameters).

(** A parameter that was given a value. *)
Definition present (p : string * pyval) : bool := negb (is_None (snd p)).

(** The serialization rule in the words of the specification: every
    parameter with a non-absent value emits [name=value]; the emitted pairs
    are separated by [&]; an absent parameter contributes nothing. *)
Fixpoint spec_query (ps : kwargs) : string :=
  match ps with
  | [] => EmptyString
  | (k, v) :: rest =>
      if is_None v then spec_query rest
      else if existsb present rest
           then k ++ "=" ++ str v ++ "&" ++ spec_query rest
           else k ++ "=" ++ str v
  end.

(* ================================================================= *)
(** ** Tables *)

(** A cell of a table: a decoded JSON value, or the missing-value marker
    [NaN] that pandas puts where a record has no entry. JSON objects are
    dicts with string keys, kept in insertion order. *)
#[warnings="-register-all"] Inductive value : Type :=
| NaN
| VNone
| VBool (b : bool)
| VNum (n : Z)
| VStr (s : string)
| VList (l : list value)
| VDict (d : list (string * value)).

(** A [Series] with the default [RangeIndex]: its values by position. *)
Definition Series : Type := list value.

(** A [DataFrame] with the default [RangeIndex], as
    [DataFrame.from_records] builds it: the column labels and, row by row,
    one cell per column. *)
Record DataFrame : Type := mkDataFrame {
  columns : list string;
  rows : list (list value)
}.

Definition nrows (df : DataFrame) : nat := List.length (rows df).

(** [columns.is_unique]. *)
Fixpoint is_unique (labels : list string) : bool :=
  match labels with
  | [] => true
  | k :: rest => negb (existsb (String.eqb k) rest) && is_unique rest
  end.

Definition has_column (df : DataFrame) (column : string) : bool :=
  existsb (String.eqb column) (columns df).

(** The cell of [row] under the first label equal to [column]. *)
Fixpoint cell (labels : list string) (column : string) (row : list value) : value :=
  match labels, row with
  | k :: labels', v :: row' =>
      if String.eqb k column then v else cell labels' column row'
  | _, _ => NaN
  end.

(** [row] without the cells under [column]. *)
Fixpoint drop_cell (labels : list string) (column : string) (row : list value)
  : list value :=
  match labels, row with
  | k :: labels', v :: row' =>
      if String.eqb k column then drop_cell labels' column row'
      else v :: drop_cell labels' column row'
  | _, _ => []
  end.

(** [row] with [v] put under [column]. *)
Fixpoint set_cell (labels : list string) (column : string) (v : value)
  (row : list value) : list value :=
  match labels, row with
  | k :: labels', old :: row' =>
      (if String.eqb k column then v else old) :: set_cell labels' column v row'
  | _, _ => row
  end.

Definition drop_label (labels : list string) (column : string) : list string :=
  filter (fun k => negb (String.eqb k column)) labels.

Module pd.

(** [df[column]]: [KeyError] when no column has that label. With a
    repeated label pandas returns a frame rather than a series; the code
    never gets there, [explode] having refused such a table before. *)
Definition getitem (df : DataFrame) (column : string) : outcome Series :=
  if negb (has_column df column) then Raises KeyError
  else if negb (is_unique (columns df)) then Unmodelled
  else Returns (map (cell (columns df) column) (rows df)).

(** [df.drop(column, axis="columns")]: a new frame without the column;
    [KeyError] when the label is not found in the axis. *)
Definition drop (df : DataFrame) (column : string) : outcome DataFrame :=
  if negb (has_column df column) then Raises KeyError
  else Returns {| columns := drop_label (columns df) column;
                  rows := map (drop_cell (columns df) column) (rows df) |}.

(** What [explode] makes of one cell. The library treats every iterable
    that is not a string as list-like, a dict included; an empty list-like
    becomes one [NaN]; a non-empty one is turned into the list of its
    elements, which for a dict are its keys; anything else is kept as it is.
    (Releases of pandas before 1.3 read the elements by position instead,
    which on a dict raised the [KeyError] the comment at line 174 speaks
    of; since 1.3 no cell makes [explode] raise.) *)
Definition explode_cell (v : value) : outcome (list value) :=
  match v with
  | VList [] => Returns [NaN]
  | VList l => Returns l
  | VDict [] => Returns [NaN]
  | VDict d => Returns (map (fun p => VStr (fst p)) d)
  | _ => Returns [v]
  end.

(** The rows one row explodes into: a copy of the row for every element,
    with the element in the exploded column. *)
Definition explode_row (labels : list string) (column : string)
  (row : list value) : outcome (list (list value)) :=
  obind (explode_cell (cell labels column row))
        (fun elements => Returns (map (fun e => set_cell labels column e row) elements)).

(** [df.explode(column, ignore_index=True)]: [ValueError] unless the
    column labels are unique, [KeyError] for a missing column, otherwise a
    new frame with the same columns and the rows renumbered. *)
Definition explode (df : DataFrame) (column : string) : outcome DataFrame :=
  if negb (is_unique (columns df)) then Raises ValueError
  else if negb (has_column df column) then Raises KeyError
  else obind (traverse (explode_row (columns df) column) (rows df))
             (fun groups => Returns {| columns := columns df;
                                       rows := List.concat groups |}).

(** Keys in order of first appearance. *)
Fixpoint add_keys (seen : list string) (keys : list string) : list string :=
  match keys with
  | [] => seen
  | k :: rest =>
      if existsb (String.eqb k) seen then add_keys seen rest
      else add_keys (seen ++ [k])%list rest
  end.

Definition unique_keys (records : list (list (string * value))) : list string :=
  fold_left (fun seen d => add_keys seen (map fst d)) records [].

(** [d[k] if k in d else nan]. *)
Fixpoint dict_get (k : string) (d : list (string * value)) : value :=
  match d with
  | [] => NaN
  | (k', v) :: rest => if String.eqb k' k then v else dict_get k rest
  end.

Definition record_cells (keys : list string) (d : list (string * value))
  : list value :=
  map (fun k => dict_get k d) keys.

(** [x.keys()] of an element of the data: only a dict has it. *)
Definition as_record (v : value) : outcome (list (string * value)) :=
  match v with
  | VDict d => Returns d
  | _ => Raises AttributeError
  end.

(** [pd.DataFrame.from_records(data)] for a sequence of Python objects.
    The first element selects the constructor:
    - no element: the empty frame;
    - a dict: every element must have [keys()]; the columns are the keys in
      order of first appearance and a record without a key gets [NaN];
    - a list or a string: the list-of-sequences constructor with integer
      labels (not described here);
    - any other scalar: [tuple(x)] raises [TypeError].
    A cell records which value of the data it was built from. The dtype
    pandas chooses for a column, and with it the representation of the value
    (an integer beside a missing entry is stored as a float, a null as
    [NaN] in some releases), is not described. *)
Definition from_records (data : list value) : outcome DataFrame :=
  match data with
  | [] => Returns {| columns := []; rows := [] |}
  | VDict _ :: _ =>
      obind (traverse as_record data)
            (fun records =>
               let keys := unique_keys records in
               Returns {| columns := keys;
                          rows := map (record_cells keys) records |})
  | VList _ :: _ => Unmodelled
  | VStr _ :: _ => Unmodelled
  | _ :: _ => Raises TypeError
  end.

(** Row alignment of [pd.concat(..., axis="columns")] on two default
    indexes: positions present on one side only are filled with [NaN]. *)
Fixpoint align_rows (wa wb : nat) (ra rb : list (list value)) : list (list value) :=
  match ra with
  | [] => map (fun b => (repeat NaN wa ++ b)%list) rb
  | a :: ra' =>
      match rb with
      | [] => (a ++ repeat NaN wb)%list :: align_rows wa wb ra' []
      | b :: rb' => (a ++ b)%list :: align_rows wa wb ra' rb'
      end
  end.

(** [pd.concat((a, b), axis="columns")]: a new frame with the columns of
    [a] followed by those of [b]. *)
Definition concat (a b : DataFrame) : DataFrame :=
  {| columns := (columns a ++ columns b)%list;
     rows := align_rows (List.length (columns a)) (List.length (columns b))
                        (rows a) (rows b) |}.

End pd.

(* ================================================================= *)
(** ** The pandas interface the program is written against *)

(** [_flatten_column] is written once, over the operations it calls, and
    read twice: on table values, and on a heap of table objects where every
    call allocates its result. *)
Class Pandas (M : Type -> Type) (frame series : Type) : Type := {
  df_explode : frame -> string -> M frame;
  df_drop : frame -> string -> M frame;
  df_getitem : frame -> string -> M series;
  df_from_records : series -> M frame;
  pd_concat : frame -> frame -> M frame;
  (** [try: body except KeyError: handler] *)
  try_except_KeyError : forall A : Type, M A -> M A -> M A;
  (** sequencing of statements *)
  bind : forall A B : Type, M A -> (A -> M B) -> M B;
  ret : forall A : Type, A -> M A
}.

Arguments try_except_KeyError {M frame series _ A} body handler.
Arguments bind {M frame series _ A B} m k.
Arguments ret {M frame series _ A} a.

Declare Scope pandas_scope.
Notation "x <- m ;; k" := (bind m (fun x => k))
  (at level 61, m at next level, right associativity) : pandas_scope.
Local Open Scope pandas_scope.

(** [_flatten_column(df, column)] (lines 169-178). The assignment in the
    [try] block rebinds the local name [df]; when [explode] raises
    [KeyError] the name keeps the argument. The two arguments of
    [pd.concat] are evaluated left to right. *)
Definition _flatten_column {M frame series} `{Pandas M frame series}
  (df : frame) (column : string) : M frame :=
  df <- try_except_KeyError (df_explode df column) (ret df) ;;
  dropped <- df_drop df column ;;
  nested <- df_getitem df column ;;
  records <- df_from_records nested ;;
  pd_concat dropped records.

(** *** Reading on values *)

#[export] Instance pandas_values : Pandas outcome DataFrame Series := {
  df_explode := pd.explode;
  df_drop := pd.drop;
  df_getitem := pd.getitem;
  df_from_records := pd.from_records;
  pd_concat := fun a b => Returns (pd.concat a b);
  try_except_KeyError := fun A body handler =>
    match body with
    | Raises KeyError => handler
    | _ => body
    end;
  bind := fun A B m k => obind m k;
  ret := fun A a => Returns a
}.

(** *** Reading on a heap of objects *)

Definition ref : Type := nat.

Inductive object : Type :=
| ODataFrame (df : DataFrame)
| OSeries (s : Series).

Definition heap : Type := list object.

Definition Heap (A : Type) : Type := heap -> outcome A * heap.

Definition alloc (o : object) : Heap ref :=
  fun h => (Returns (List.length h), (h ++ [o])%list).

Definition read_frame (r : ref) : Heap DataFrame :=
  fun h => match nth_error h r with
           | Some (ODataFrame df) => (Returns df, h)
           | _ => (Unmodelled, h)
           end.

Definition read_series (r : ref) : Heap Series :=
  fun h => match nth_error h r with
           | Some (OSeries s) => (Returns s, h)
           | _ => (Unmodelled, h)
           end.

Definition hbind {A B : Type} (m : Heap A) (k : A -> Heap B) : Heap B :=
  fun h => match m h with
           | (Returns a, h') => k a h'
           | (Raises e, h') => (Raises e, h')
           | (Unmodelled, h') => (Unmodelled, h')
           end.

(** Running a computation from a heap. *)
Definition run {A : Type} (m : Heap A) (h : heap) : outcome A * heap := m h.

Definition hlift {A : Type} (m : outcome A) : Heap A := fun h => (m, h).

(** A library call on a frame object: it reads the object and allocates
    the frame it returns; the object it was called on is left alone. *)
Definition frame_call (f : DataFrame -> outcome DataFrame) (r : ref) : Heap ref :=
  hbind (read_frame r) (fun df =>
  hbind (hlift (f df)) (fun out => alloc (ODataFrame out))).

(** [try: body except KeyError: handler]; what the body allocated before
    it raised stays allocated. *)
Definition heap_try {A : Type} (body handler : Heap A) : Heap A :=
  fun h => match body h with
           | (Raises KeyError, h') => handler h'
           | other => other
           end.

Definition heap_explode (r : ref) (column : string) : Heap ref :=
  frame_call (fun df => pd.explode df column) r.

Definition heap_drop (r : ref) (column : string) : Heap ref :=
  frame_call (fun df => pd.drop df column) r.

Definition heap_getitem (r : ref) (column : string) : Heap ref :=
  hbind (read_frame r) (fun df =>
  hbind (hlift (pd.getitem df column)) (fun s => alloc (OSeries s))).

Definition heap_from_records (r : ref) : Heap ref :=
  hbind (read_series r) (fun s =>
  hbind (hlift (pd.from_records s)) (fun out => alloc (ODataFrame out))).

Definition heap_concat (ra rb : ref) : Heap ref :=
  hbind (read_frame ra) (fun a =>
  hbind (read_frame rb) (fun b => alloc (ODataFrame (pd.concat a b)))).

#[export] Instance pandas_heap : Pandas Heap ref ref := {
  df_explode := heap_explode;
  df_drop := heap_drop;
  df_getitem := heap_getitem;
  df_from_records := heap_from_records;
  pd_concat := heap_concat;
  try_except_KeyError := fun A body handler => heap_try body handler;
  bind := fun A B m k => hbind m k;
  ret := fun A a => hlift (Returns a)
}.

(* ================================================================= *)
(** ** Dates *)

Module dt.

Local Open Scope Z_scope.

(** A [pd.Timestamp] (naive): its calendar fields. *)
Record Timestamp : Type := mkTimestamp {
  year : Z; month : Z; day : Z;
  hour : Z; minute : Z; second : Z; nanosecond : Z
}.

(** The date-like arguments of [get_observations] described here: a string,
    a [datetime.date], or a [datetime.datetime] / [pd.Timestamp] with its
    time of day (the sub-second part in nanoseconds). *)
Inductive datelike : Type :=
| DStr (s : string)
| DDate (y m d : Z)
| DTimestamp (y m d hh mi ss ns : Z).

Definition is_leap (y : Z) : bool :=
  (y mod 4 =? 0) && (negb (y mod 100 =? 0) || (y mod 400 =? 0)).

Definition days_in_month (y m : Z) : Z :=
  if m =? 2 then (if is_leap y then 29 else 28)
  else if (m =? 4) || (m =? 6) || (m =? 9) || (m =? 11) then 30
  else 31.

(** The dates a [datetime.date] can hold. *)
Definition valid_date (y m d : Z) : bool :=
  (1 <=? y) && (y <=? 9999) && (1 <=? m) && (m <=? 12) &&
  (1 <=? d) && (d <=? days_in_month y m).

Definition valid_time (hh mi ss ns : Z) : bool :=
  (0 <=? hh) && (hh <? 24) && (0 <=? mi) && (mi <? 60) &&
  (0 <=? ss) && (ss <? 60) && (0 <=? ns) && (ns <? 1000000000).

(** Days since 1970-01-01 in the proleptic Gregorian calendar. *)
Definition days_from_civil (y m d : Z) : Z :=
  let y' := if m <=? 2 then y - 1 else y in
  let mp := if m <=? 2 then m + 9 else m - 3 in
  365 * y' + y' / 4 - y' / 100 + y' / 400 + (153 * mp + 2) / 5 + d - 1 - 719468.

(** The value a [Timestamp] stores: nanoseconds since the epoch, a signed
    64-bit integer whose least value is reserved for [NaT]. *)
Definition epoch_ns (ts : Timestamp) : Z :=
  ((days_from_civil (year ts) (month ts) (day ts) * 86400
    + hour ts * 3600 + minute ts * 60 + second ts) * 1000000000)
  + nanosecond ts.

Definition in_bounds (ts : Timestamp) : bool :=
  (- 2 ^ 63 <? epoch_ns ts) && (epoch_ns ts <=? 2 ^ 63 - 1).

Definition digit (c : ascii) : option Z :=
  let n := nat_of_ascii c in
  if (48 <=? n)%nat && (n <=? 57)%nat then Some (Z.of_nat (n - 48)) else None.

Fixpoint number (acc : Z) (cs : list ascii) : option Z :=
  match cs with
  | [] => Some acc
  | c :: rest =>
      match digit c with
      | Some d => number (acc * 10 + d) rest
      | None => None
      end
  end.

Definition is_char (c : ascii) (s : string) : bool :=
  String.eqb (String c EmptyString) s.

(** The time of day after an ISO date: nothing, or a blank or [T] followed
    by [HH:MM:SS]. *)
Definition parse_time (cs : list ascii) : option (Z * Z * Z) :=
  match cs with
  | [] => Some (0, 0, 0)
  | sep :: H1 :: H2 :: c1 :: M1 :: M2 :: c2 :: S1 :: S2 :: [] =>
      if (is_char sep " " || is_char sep "T") && is_char c1 ":" && is_char c2 ":"
      then match number 0 [H1; H2], number 0 [M1; M2], number 0 [S1; S2] with
           | Some hh, Some mi, Some ss => Some (hh, mi, ss)
           | _, _, _ => None
           end
      else None
  | _ => None
  end.

(** ISO 8601 strings [YYYY-MM-DD], [YYYY-MM-DD HH:MM:SS] and
    [YYYY-MM-DDTHH:MM:SS] that name a date of the calendar. [None] for any
    other string, which pandas hands to its free-form parser. *)
Definition parse_iso (s : string) : option Timestamp :=
  match list_ascii_of_string s with
  | y1 :: y2 :: y3 :: y4 :: c1 :: m1 :: m2 :: c2 :: d1 :: d2 :: rest =>
      if is_char c1 "-" && is_char c2 "-"
      then match number 0 [y1; y2; y3; y4], number 0 [m1; m2],
                 number 0 [d1; d2], parse_time rest with
           | Some y, Some m, Some d, Some (hh, mi, ss) =>
               if valid_date y m d && valid_time hh mi ss 0
               then Some (mkTimestamp y m d hh mi ss 0)
               else None
           | _, _, _, _ => None
           end
      else None
  | _ => None
  end.

(** What the free-form parser of pandas makes of a string that is not one
    of the ISO forms above: a timestamp, or it gives up. [NotDescribed]
    where a description of the parser is silent. *)
Inductive reading : Type :=
| Reads (ts : Timestamp)
| GivesUp
| NotDescribed.

(** What of [pd.to_datetime] is not the same in every release of pandas,
    or lies in its free-form parser: which timestamps outside the 64-bit
    nanosecond range the release can hold (none in the releases that keep
    nanoseconds only, which raise [OutOfBoundsDatetime] for them; a release
    that chooses a coarser unit holds them), and what the parser reads in a
    string that is not one of the ISO forms. The code is verified for every
    such library. *)
Class DateLibrary : Type := {
  holds : Timestamp -> bool;
  free_form : string -> reading
}.

(** Two partial descriptions of pandas to evaluate on: a release limited
    to nanoseconds (1.5.3), and one that holds every date of the calendar
    (3.1.0). Of the free-form parser they describe one English date and are
    silent on every other string. *)
Definition one_english_date (s : string) : reading :=
  if String.eqb s "1 May 2021" then Reads (mkTimestamp 2021 5 1 0 0 0 0)
  else NotDescribed.

Definition pandas_ns : DateLibrary :=
  {| holds := fun _ => false; free_form := one_english_date |}.


Definition is_valid (ts : Timestamp) : bool :=
  valid_date (year ts) (month ts) (day ts)
  && valid_time (hour ts) (minute ts) (second ts) (nanosecond ts).

(** The timestamps the library accepts: those of the nanosecond range in
    every release, and those the release holds besides. *)
Definition accepts {lib : DateLibrary} (ts : Timestamp) : bool :=
  in_bounds ts || holds ts.

Definition checked {lib : DateLibrary} (ts : Timestamp) : outcome Timestamp :=
  if accepts ts then Returns ts else Raises OutOfBoundsDatetime.

(** [pd.to_datetime(arg)] for a scalar argument: a [Timestamp] of the same
    calendar fields, [OutOfBoundsDatetime] when the library cannot hold
    them. A string in one of the ISO forms is read as such, any other
    string by the free-form parser, which raises a [ValueError] when it
    gives up. A [Timestamp] always holds a date of the calendar: field
    values no Python object can hold are not described. *)
Definition to_datetime {lib : DateLibrary} (arg : datelike) : outcome Timestamp :=
  match arg with
  | DStr s =>
      match parse_iso s with
      | Some ts => checked ts
      | None =>
          match free_form s with
          | Reads ts => if is_valid ts then checked ts else Unmodelled
          | GivesUp => Raises ValueError
          | NotDescribed => Unmodelled
          end
      end
  | DDate y m d =>
      if valid_date y m d then checked (mkTimestamp y m d 0 0 0 0)
      else Unmodelled
  | DTimestamp y m d hh mi ss ns =>
      if valid_date y m d && valid_time hh mi ss ns
      then checked (mkTimestamp y m d hh mi ss ns)
      else Unmodelled
  end.

(** [%m] and [%d]: two digits, zero-padded. *)
Definition pad2 (n : Z) : string :=
  if n <? 10 then "0" ++ Z_to_string n else Z_to_string n.

(** [ts.strftime("%Y-%m-%d")]; [%Y] is the year in decimal as the C
    library of Linux prints it: without leading zeros. *)
Definition strftime_Ymd (ts : Timestamp) : string :=
  Z_to_string (year ts) ++ "-" ++ pad2 (month ts) ++ "-" ++ pad2 (day ts).

(** The calendar date written [YYYY-MM-DD], digit by digit. *)
Definition digit_char (n : Z) : ascii := ascii_of_nat (48 + Z.to_nat n).

Definition iso_date (y m d : Z) : string :=
  String (digit_char (y / 1000 mod 10))
  (String (digit_char (y / 100 mod 10))
  (String (digit_char (y / 10 mod 10))
  (String (digit_char (y mod 10))
  (String "-"
  (String (digit_char (m / 10 mod 10))
  (String (digit_char (m mod 10))
  (String "-"
  (String (digit_char (d / 10 mod 10))
  (String (digit_char (d mod 10)) EmptyString))))))))).




(** The two assignments at lines 148-149:
    [pd.to_datetime(x).strftime("%Y-%m-%d")]. *)
Definition date_segment {lib : DateLibrary} (x : datelike) : outcome string :=
  obind (to_datetime x) (fun ts => Returns (strftime_Ymd ts)).

(** Decimal numerals of fixed width, digit by digit. *)
Definition two_digits (n : Z) : string :=
  String (digit_char (n / 10 mod 10))
  (String (digit_char (n mod 10)) EmptyString).

Definition four_digits (n : Z) : string :=
  String (digit_char (n / 1000 mod 10))
  (String (digit_char (n / 100 mod 10)) (two_digits n)).

Definition Z_range (lo : Z) (n : nat) : list Z :=
  map (fun i => lo + Z.of_nat i) (seq 0 n).

(** The years of four digits, and the numbers [%m] and [%d] print: on
    them the decimal rendering is compared with the fixed-width numerals by
    evaluation. *)
Definition years_checked : bool :=
  forallb (fun y => String.eqb (Z_to_string y) (four_digits y))
          (Z_range 1000 (Z.to_nat 9000)).

Definition pad2_checked : bool :=
  forallb (fun n => String.eqb (pad2 n) (two_digits n)) (Z_range 0 32).

End dt.
Import dt.

(* ================================================================= *)
(** ** The client *)

(** A [requests.Response]: its status code and what [json()] decodes, if
    the body is JSON at all. *)
Record Response : Type := mkResponse {
  status_code : Z;
  body : option value
}.

(** [response.raise_for_status()]: [HTTPError] for the client-error and
    server-error statuses 400-599, nothing otherwise. *)
Definition raise_for_status (response : Response) : outcome unit :=
  if (400 <=? status_code response)%Z && (status_code response <? 600)%Z
  then Raises (HTTPError (status_code response))
  else Returns tt.

(** [response.json()]. *)
Definition response_json (response : Response) : outcome value :=
  match body response with
  | Some v => Returns v
  | None => Raises JSONDecodeError
  end.

(** [pd.DataFrame.from_records(response.json())]: the body is expected to
    be a JSON array. A number, boolean or null has no [len()]; what pandas
    builds from a string or from a single object is not described. *)
Definition from_records_json (data : value) : outcome DataFrame :=
  match data with
  | VList l => pd.from_records l
  | VStr _ | VDict _ => Unmodelled
  | _ => Raises TypeError
  end.

(** A computation that talks to the network: the URLs it requested, in
    order, and its outcome. *)
Definition IO (A : Type) : Type := (list string * outcome A)%type.

Definition io_bind {A B : Type} (m : IO A) (k : A -> IO B) : IO B :=
  match m with
  | (t, Returns a) => let (t', r) := k a in ((t ++ t')%list, r)
  | (t, Raises e) => (t, Raises e)
  | (t, Unmodelled) => (t, Unmodelled)
  end.

Definition io_lift {A : Type} (m : outcome A) : IO A := ([], m).

Definition trace {A : Type} (m : IO A) : list string := fst m.
Definition result {A : Type} (m : IO A) : outcome A := snd m.

(** The client object: [__init__] sets its one attribute. *)
Record NILUClient : Type := mkNILUClient { base_url : string }.

Definition __init__ : NILUClient := {| base_url := "https://api.nilu.no/" |}.

Definition default_station : pyval := PStr "all".

(** The public operations and their arguments. *)
Inductive call : Type :=
| GetAreas
| GetStations (area utd : pyval)
| GetComponents
| GetAirQualityIndex (component culture : pyval)
| GetTimeseries (station component timestep : pyval)
| GetObservations (fromtime totime : datelike) (station : pyval)
    (components : option (list string)) (showinvalid : pyval).

Definition post_processed (c : call) : bool :=
  match c with
  | GetAirQualityIndex _ _ | GetObservations _ _ _ _ _ => true
  | _ => false
  end.

Section Client.

(** The pandas the client runs on, as far as dates go. *)
Context {lib : DateLibrary}.

(** The network: what [requests.get] obtains for a URL, [None] when the
    transport fails before any response arrives. *)
Variable network : string -> option Response.

(** [requests.get(url)]. *)
Definition requests_get (url : string) : IO Response :=
  ([url], match network url with
          | Some response => Returns response
          | None => Raises ConnectionError
          end).

(** [_get_url] (lines 17-20). *)
Definition _get_url (self : NILUClient) (url : string)
  (query_parameters : kwargs) : IO DataFrame :=
  io_bind (requests_get (base_url self ++ url ++ "?" ++ _stringify query_parameters))
    (fun response =>
  io_bind (io_lift (raise_for_status response)) (fun _ =>
  io_bind (io_lift (response_json response)) (fun data =>
  io_lift (from_records_json data)))).

Definition get_areas (self : NILUClient) : IO DataFrame :=
  _get_url self "lookup/areas" [].

Definition get_stations (self : NILUClient) (area utd : pyval) : IO DataFrame :=
  _get_url self "lookup/stations" [("area", area); ("utd", utd)].

Definition get_components (self : NILUClient) : IO DataFrame :=
  _get_url self "lookup/components" [].

Definition get_air_quality_index (self : NILUClient) (component culture : pyval)
  : IO DataFrame :=
  io_bind (_get_url self "lookup/aqis"
             [("component", component); ("culture", culture)])
    (fun df => io_lift (_flatten_column df "aqis")).

Definition get_timeseries (self : NILUClient) (station component timestep : pyval)
  : IO DataFrame :=
  _get_url self "lookup/timeseries"
    [("station", station); ("component", component); ("timestep", timestep)].

(** Lines 151-152: [if components is not None: components = ";".join(components)]. *)
Definition join_components (components : option (list string)) : pyval :=
  match components with
  | Some l => PStr (join ";" l)
  | None => PNone
  end.

Definition observations_parameters (components : option (list string))
  (showinvalid : pyval) : kwargs :=
  [("components", join_components components); ("showinvalid", showinvalid)].

Definition observations_path (fromtime totime : string) (station : pyval) : string :=
  "obs/historical/" ++ fromtime ++ "/" ++ totime ++ "/" ++ str station.

Definition get_observations (self : NILUClient) (fromtime totime : datelike)
  (station : pyval) (components : option (list string)) (showinvalid : pyval)
  : IO DataFrame :=
  io_bind (io_lift (date_segment fromtime)) (fun fromtime =>
  io_bind (io_lift (date_segment totime)) (fun totime =>
  io_bind (_get_url self (observations_path fromtime totime station)
             (observations_parameters components showinvalid))
    (fun df => io_lift (_flatten_column df "values")))).

Definition perform (self : NILUClient) (c : call) : IO DataFrame :=
  match c with
  | GetAreas => get_areas self
  | GetStations area utd => get_stations self area utd
  | GetComponents => get_components self
  | GetAirQualityIndex component culture =>
      get_air_quality_index self component culture
  | GetTimeseries station component timestep =>
      get_timeseries self station component timestep
  | GetObservations fromtime totime station components showinvalid =>
      get_observations self fromtime totime station components showinvalid
  end.

End Client.

(** Some networks to run the client on. *)
Definition constant_network (response : Response) : string -> option Response :=
  fun _ => Some response.

(* ================================================================= *)
(** ** Vocabulary of the statements *)

(** One emitted pair, [name=value]. *)
Definition render (p : string * pyval) : string := fst p ++ "=" ++ str (snd p).

(** The table [_flatten_column] goes on with after its [try] statement. *)
Definition after_try (df : DataFrame) (column : string) : outcome DataFrame :=
  try_except_KeyError (df_explode df column) (ret df).

Definition is_object (v : value) : bool :=
  match v with VDict _ => true | _ => false end.

Definition is_nonempty_list_of_objects (v : value) : bool :=
  match v with
  | VList (e :: es) => forallb is_object (e :: es)
  | _ => false
  end.

(** The key/value pairs of a nested object. *)
Definition fields (v : value) : list (string * value) :=
  match v with VDict d => d | _ => [] end.

(** The nested objects of a cell: the elements of a list, or the cell
    itself. *)
Definition nested (v : value) : list value :=
  match v with VList l => l | _ => [v] end.

(** Step 2 on one row: the untouched cells, then the fields of the row's
    own nested object under the new columns [keys]. *)
Definition merge_row (labels : list string) (column : string)
  (keys : list string) (row : list value) : list value :=
  (drop_cell labels column row
   ++ pd.record_cells keys (fields (cell labels column row)))%list.

Definition merged (df : DataFrame) (column : string) : DataFrame :=
  let keys :=
    pd.unique_keys (map (fun row => fields (cell (columns df) column row)) (rows df)) in
  {| columns := (drop_label (columns df) column ++ keys)%list;
     rows := map (merge_row (columns df) column keys) (rows df) |}.

(** Steps 1 and 2 told row by row on the input table: every nested object
    [e] of a row gives one output row. *)
Definition nested_keys (df : DataFrame) (column : string) : list string :=
  pd.unique_keys
    (map fields (flat_map (fun row => nested (cell (columns df) column row)) (rows df))).

Definition flattened_row (labels : list string) (column : string)
  (keys : list string) (row : list value) (e : value) : list value :=
  (drop_cell labels column row ++ pd.record_cells keys (fields e))%list.

Definition flattened (df : DataFrame) (column : string) : DataFrame :=
  {| columns := (drop_label (columns df) column ++ nested_keys df column)%list;
     rows := flat_map
               (fun row => map (flattened_row (columns df) column
                                  (nested_keys df column) row)
                               (nested (cell (columns df) column row)))
               (rows df) |}.

(** Tables the flattener is written for: unique labels, the column
    present, and in it non-empty lists of objects only. *)
Definition flattenable (df : DataFrame) (column : string) : bool :=
  is_unique (columns df) && has_column df column
  && forallb is_nonempty_list_of_objects (map (cell (columns df) column) (rows df)).

(** Sum over the rows of (number of nested objects - 1). *)
Definition row_count_change (df : DataFrame) (column : string) : Z :=
  fold_right Z.add 0%Z
    (map (fun row =>
            (Z.of_nat (List.length (nested (cell (columns df) column row))) - 1)%Z)
         (rows df)).

(** The table of the end-to-end scenario of the specification. *)
Definition aqis_table : DataFrame :=
  {| columns := ["component"; "aqis"];
     rows := [[VStr "NO2"; VList [VDict [("value", VNum 1)]; VDict [("value", VNum 2)]]]] |}.

Definition empty_table : DataFrame := {| columns := []; rows := [] |}.

(** The heap [h'] still holds every object of [h], unchanged and at the
    same reference. *)
Definition extends (h h' : heap) : Prop := exists fresh, h' = (h ++ fresh)%list.

(** A heap computation that allocates the frame a computation on values
    returns, and fails as the latter fails. *)
Definition allocates (m : Heap ref) (h : heap) (o : outcome object) : Prop :=
  match o with
  | Returns x => m h = (Returns (List.length h), (h ++ [x])%list)
  | Raises e => m h = (Raises e, h)
  | Unmodelled => m h = (Unmodelled, h)
  end.

Definition omap {A B : Type} (f : A -> B) (m : outcome A) : outcome B :=
  obind m (fun a => Returns (f a)).

(** What a run on the heap has to do with the run on values: the heap only
    grows, and the outcome is that of the values, a returned table being
    the object allocated last. *)
Definition simulates (run : outcome ref * heap) (h : heap) (o : outcome DataFrame)
  : Prop :=
  match o with
  | Returns t =>
      exists h', extends h h'
                 /\ run = (Returns (List.length h'), (h' ++ [ODataFrame t])%list)
  | Raises e => exists h', extends h h' /\ run = (Raises e, h')
  | Unmodelled => exists h', extends h h' /\ run = (Unmodelled, h')
  end.

(** The part of [_flatten_column] after the [try] statement. *)
Definition merge_step {M frame series} `{Pandas M frame series}
  (df : frame) (column : string) : M frame :=
  dropped <- df_drop df column ;;
  nested <- df_getitem df column ;;
  records <- df_from_records nested ;;
  pd_concat dropped records.

(** The rows of a table after step 1, when every cell of the column
    explodes. *)
Definition exploded_rows (df : DataFrame) (column : string) : list (list value) :=
  flat_map (fun row => map (fun e => set_cell (columns df) column e row)
                           (nested (cell (columns df) column row)))
           (rows df).

Definition is_HTTPError (e : exn) : bool :=
  match e with HTTPError _ => true | _ => false end.

Definition raises_HTTPError {A : Type} (m : outcome A) : bool :=
  match m with Raises e => is_HTTPError e | _ => false end.

(** The statuses [raise_for_status] rejects. *)
Definition is_error_status (s : Z) : bool := ((400 <=? s) && (s <? 600))%Z.

(** The URL [_get_url] requests. *)
Definition request_url (self : NILUClient) (url : string) (q : kwargs) : string :=
  base_url self ++ url ++ "?" ++ _stringify q.

(* ================================================================= *)
(** ** Further vocabulary *)

(** Two query fragments put together: a separator only between two
    non-empty fragments. *)
Definition amp (a b : string) : string :=
  if String.eqb a EmptyString then b
  else if String.eqb b EmptyString then a
  else a ++ "&" ++ b.

(** The requests an operation makes, read off its arguments alone: the
    URL of its endpoint, for the observations call with the segments of its
    two dates. Where a date has no segment, because pandas rejects it or
    because its conversion is not described, the list is empty and says
    nothing of the call. *)
Definition requests {lib : DateLibrary} (self : NILUClient) (c : call)
  : list string :=
  match c with
  | GetAreas => [request_url self "lookup/areas" []]
  | GetStations area utd =>
      [request_url self "lookup/stations" [("area", area); ("utd", utd)]]
  | GetComponents => [request_url self "lookup/components" []]
  | GetAirQualityIndex component culture =>
      [request_url self "lookup/aqis"
         [("component", component); ("culture", culture)]]
  | GetTimeseries station component timestep =>
      [request_url self "lookup/timeseries"
         [("station", station); ("component", component); ("timestep", timestep)]]
  | GetObservations fromtime totime station components showinvalid =>
      match date_segment fromtime, date_segment totime with
      | Returns f, Returns t =>
          [request_url self (observations_path f t station)
             (observations_parameters components showinvalid)]
      | _, _ => []
      end
  end.

(** The column an operation flattens, if it flattens one. *)
Definition flattened_column (c : call) : option string :=
  match c with
  | GetAirQualityIndex _ _ => Some "aqis"
  | GetObservations _ _ _ _ _ => Some "values"
  | _ => None
  end.

(** The table [DataFrame.from_records] builds from JSON objects. *)
Definition records_table (records : list (list (string * value))) : DataFrame :=
  {| columns := pd.unique_keys records;
     rows := map (pd.record_cells (pd.unique_keys records)) records |}.

(** Every row has one cell per column. *)
Definition rectangular (df : DataFrame) : Prop :=
  Forall (fun row => List.length row = List.length (columns df)) (rows df).

(** Numbers, booleans, [None] and [NaN]: the cells that are neither
    strings nor containers. *)
Definition is_plain_scalar (v : value) : bool :=
  match v with
  | NaN | VNone | VBool _ | VNum _ => true
  | _ => false
  end.

(** The script under [if __name__ == "__main__"] (lines 181-188): six
    calls on one client, their results dropped; an exception ends it. *)
Definition __main__ {lib : DateLibrary} (network : string -> option Response)
  : IO unit :=
  let client := __init__ in
  io_bind (get_areas network client) (fun _ =>
  io_bind (get_stations network client (PStr "bergen") PNone) (fun _ =>
  io_bind (get_components network client) (fun _ =>
  io_bind (get_timeseries network client (PStr "Danmarks plass") PNone PNone) (fun _ =>
  io_bind (get_air_quality_index network client PNone PNone) (fun _ =>
  io_bind (get_observations network client (DStr "2021-05-01") (DStr "2021-05-02")
             (PStr "Danmarks plass") (Some ["NOx"]) PNone) (fun _ =>
  io_lift (Returns tt))))))).

Definition main_requests : list string :=
  ["https://api.nilu.no/lookup/areas?";
   "https://api.nilu.no/lookup/stations?area=bergen";
   "https://api.nilu.no/lookup/components?";
   "https://api.nilu.no/lookup/timeseries?station=Danmarks plass";
   "https://api.nilu.no/lookup/aqis?";
   "https://api.nilu.no/obs/historical/2021-05-01/2021-05-02/Danmarks plass?components=NOx"].

(** What [_get_url] makes of the answer to its request. *)
Definition respond (answer : option Response) : outcome DataFrame :=
  match answer with
  | None => Raises ConnectionError
  | Some response =>
      obind (raise_for_status response) (fun _ =>
      obind (response_json response) from_records_json)
  end.

(** What an operation does with the table of [_get_url]. *)
Definition post_process (c : call) (df : DataFrame) : outcome DataFrame :=
  match flattened_column c with
  | Some column => _flatten_column df column
  | None => Returns df
  end.

(** A script that requests the URLs [us] in this order and stops at the
    first failure: what it requested is a prefix of [us], all of [us] when
    it ends without an exception. *)
Definition runs {A : Type} (us : list string) (p : IO A) : Prop :=
  (exists rest, us = (trace p ++ rest)%list)
  /\ (forall a, result p = Returns a -> trace p = us).

(** A table after which the flattener leaves a label twice. *)
Definition colliding_table : DataFrame :=
  {| columns := ["component"; "aqis"];
     rows := [[VStr "NO2"; VList [VDict [("component", VStr "NOx")]]]] |}.

(** The number of objects nested under [column], over all records. *)
Definition nested_count (column : string) (records : list (list (string * value)))
  : Z :=
  fold_right Z.add 0%Z
    (map (fun d => Z.of_nat (List.length (nested (pd.dict_get column d)))) records).

(* ================================================================= *)
(** * Properties *)

(** ** Query strings *)

Lemma append_assoc (a b c : string) : (a ++ b) ++ c = a ++ (b ++ c).
Proof. induction a as [|x a IH]; simpl; [reflexivity | now rewrite IH]. Qed.

Lemma stringify_items_filter (ps : kwargs) :
  stringify_items ps = map render (filter present ps).
Proof.
  induction ps as [|[k v] ps IH]; simpl; [reflexivity|].
  unfold present at 1; simpl.
  destruct (is_None v); simpl; now rewrite IH.
Qed.

Lemma stringify_items_nil (ps : kwargs) :
  existsb present ps = false <-> stringify_items ps = [].
Proof.
  induction ps as [|[k v] ps IH]; simpl; [tauto|].
  unfold present at 1; simpl.
  destruct (is_None v); simpl; [exact IH|].
  split; discriminate.
Qed.

Lemma stringify_items_app (ps qs : kwargs) :
  stringify_items (ps ++ qs)%list = (stringify_items ps ++ stringify_items qs)%list.
Proof.
  induction ps as [|[k v] ps IH]; simpl; [reflexivity|].
  destruct (is_None v); simpl; now rewrite IH.
Qed.

Lemma join_cons (sep x : string) (l : list string) :
  join sep (x :: l) = match l with [] => x | _ :: _ => x ++ sep ++ join sep l end.
Proof. destruct l; reflexivity. Qed.

Lemma stringify_spec_query (ps : kwargs) : _stringify ps = spec_query ps.
Proof.
  unfold _stringify.
  induction ps as [|[k v] ps IH]; simpl; [reflexivity|].
  destruct (is_None v); [exact IH|].
  rewrite join_cons.
  destruct (existsb present ps) eqn:E.
  - destruct (stringify_items ps) eqn:I.
    + apply stringify_items_nil in I. congruence.
    + rewrite <- IH. now rewrite !append_assoc.
  - apply stringify_items_nil in E. rewrite E.
    reflexivity.
Qed.

Lemma stringify_skips_None (ps qs : kwargs) (k : string) :
  _stringify (ps ++ (k, PNone) :: qs)%list = _stringify (ps ++ qs)%list.
Proof.
  unfold _stringify. now rewrite !stringify_items_app.
Qed.

(** [_get_url] issues exactly one request, for the URL it built. *)
Lemma get_url_trace (network : string -> option Response) (self : NILUClient)
  (url : string) (q : kwargs) :
  trace (_get_url network self url q)
  = [base_url self ++ url ++ "?" ++ _stringify q].
Proof.
  unfold _get_url, requests_get, trace; simpl.
  destruct (network _) as [response|]; simpl; [|reflexivity].
  destruct (raise_for_status response); simpl; try reflexivity.
  destruct (response_json response) as [data| |]; reflexivity.
Qed.

(** C3: the query string is the [name=value] pairs of exactly the
    parameters whose value is not [None], joined by [&] in the order they
    were supplied; it coincides with the serialization rule of the
    specification, which puts a separator only between a pair and a
    following pair, so an absent parameter leaves no empty slot and no
    leading or trailing [&]. Station lookup with only [area="bergen"]
    requests the query string [area=bergen]. *)
Theorem stringify_serialization :
  (forall ps : kwargs, _stringify ps = join "&" (map render (filter present ps)))
  /\ (forall ps : kwargs, _stringify ps = spec_query ps)
  /\ (forall (ps qs : kwargs) (k : string),
        _stringify (ps ++ (k, PNone) :: qs)%list = _stringify (ps ++ qs)%list)
  /\ _stringify [("area", PStr "bergen"); ("utd", PNone)] = "area=bergen"
  /\ (forall network : string -> option Response,
        trace (get_stations network __init__ (PStr "bergen") PNone)
        = ["https://api.nilu.no/lookup/stations?area=bergen"]).
Proof.
  split; [|split; [|split; [|split]]].
  - intros ps. unfold _stringify. now rewrite stringify_items_filter.
  - exact stringify_spec_query.
  - exact stringify_skips_None.
  - reflexivity.
  - intros network. unfold get_stations. now rewrite get_url_trace.
Qed.

(** C10: two parameter mappings with the same non-absent entries in the
    same order give the same query string; in particular a parameter passed
    as [None] cannot be told from one that was not passed. *)
Theorem stringify_depends_on_present_only :
  (forall ps qs : kwargs,
      filter present ps = filter present qs -> _stringify ps = _stringify qs)
  /\ (forall (ps qs : kwargs) (k : string),
        _stringify (ps ++ (k, PNone) :: qs)%list = _stringify (ps ++ qs)%list).
Proof.
  split.
  - intros ps qs E. unfold _stringify.
    rewrite !stringify_items_filter. now rewrite E.
  - exact stringify_skips_None.
Qed.

Lemma stringify_depends_on_present_only_witness :
  filter present [("area", PStr "bergen"); ("utd", PNone)]
  = filter present [("station", PNone); ("area", PStr "bergen")]
  /\ _stringify [("area", PStr "bergen"); ("utd", PNone)]
     = _stringify [("station", PNone); ("area", PStr "bergen")].
Proof.
  split; [reflexivity|].
  apply (proj1 stringify_depends_on_present_only
           [("area", PStr "bergen"); ("utd", PNone)]
           [("station", PNone); ("area", PStr "bergen")]).
  reflexivity.
Defined.

(* ================================================================= *)
(** ** Outcomes *)

Lemma obind_Returns {A B : Type} (m : outcome A) (k : A -> outcome B) (b : B) :
  obind m k = Returns b <-> exists a, m = Returns a /\ k a = Returns b.
Proof.
  split.
  - destruct m as [a| |]; simpl; try discriminate. intros E. now exists a.
  - intros (a & -> & E). exact E.
Qed.

Lemma traverse_Returns {A B : Type} (f : A -> outcome B) (g : A -> B) (l : list A) :
  (forall x, In x l -> f x = Returns (g x)) -> traverse f l = Returns (map g l).
Proof.
  induction l as [|x l IH]; intros Hf; simpl; [reflexivity|].
  rewrite (Hf x (or_introl eq_refl)); simpl.
  rewrite IH; [reflexivity|]. intros y Hy. apply Hf. now right.
Qed.

Lemma traverse_as_record (data : list value) (records : list (list (string * value))) :
  traverse pd.as_record data = Returns records <-> data = map VDict records.
Proof.
  revert records. induction data as [|v data IH]; intros records; simpl.
  - split.
    + intros E. injection E as <-. reflexivity.
    + destruct records; [reflexivity|discriminate].
  - split.
    + intros E. apply obind_Returns in E as (d & Ev & E).
      apply obind_Returns in E as (ds & Eds & E). injection E as <-.
      destruct v; try discriminate. injection Ev as ->.
      apply IH in Eds. now subst.
    + destruct records as [|d records]; [discriminate|].
      simpl. intros E. injection E as -> E. apply IH in E. now rewrite E.
Qed.

(* ================================================================= *)
(** ** Cells and rows *)

Lemma cell_set_cell (labels : list string) (column : string) (e : value)
  (row : list value) :
  cell labels column row <> NaN ->
  cell labels column (set_cell labels column e row) = e.
Proof.
  revert row. induction labels as [|k labels IH]; intros row; simpl.
  - intros H. now destruct H.
  - destruct row as [|v row]; [intros H; now destruct H|].
    simpl. destruct (String.eqb k column); [reflexivity|]. apply IH.
Qed.

Lemma drop_cell_set_cell (labels : list string) (column : string) (e : value)
  (row : list value) :
  drop_cell labels column (set_cell labels column e row) = drop_cell labels column row.
Proof.
  revert row. induction labels as [|k labels IH]; intros row; simpl.
  - now destruct row.
  - destruct row as [|v row]; [reflexivity|].
    simpl. destruct (String.eqb k column); now rewrite IH.
Qed.

Lemma existsb_eqb_In (k : string) (l : list string) :
  existsb (String.eqb k) l = true <-> In k l.
Proof.
  rewrite existsb_exists. split.
  - intros (x & Hx & E). apply String.eqb_eq in E. now subst.
  - intros H. exists k. split; [exact H|apply String.eqb_refl].
Qed.

Lemma drop_label_not_In (labels : list string) (column : string) :
  ~ In column (drop_label labels column).
Proof.
  unfold drop_label. rewrite filter_In. intros [_ H].
  now rewrite String.eqb_refl in H.
Qed.

Lemma add_keys_In (seen keys : list string) (k : string) :
  In k (pd.add_keys seen keys) <-> In k seen \/ In k keys.
Proof.
  revert seen. induction keys as [|x keys IH]; intros seen; simpl; [tauto|].
  destruct (existsb (String.eqb x) seen) eqn:E; rewrite IH.
  - apply existsb_eqb_In in E. split; [tauto|].
    intros [H|[<-|H]]; tauto.
  - rewrite in_app_iff. simpl. tauto.
Qed.

Lemma unique_keys_In (records : list (list (string * value))) (k : string) :
  In k (pd.unique_keys records) <-> exists d, In d records /\ In k (map fst d).
Proof.
  unfold pd.unique_keys.
  assert (G : forall seen,
             In k (fold_left (fun seen d => pd.add_keys seen (map fst d)) records seen)
             <-> In k seen \/ exists d, In d records /\ In k (map fst d)).
  { induction records as [|d records IH]; intros seen; simpl.
    - split; [tauto|]. intros [H|(d & [] & _)]. exact H.
    - rewrite IH, add_keys_In. split.
      + intros [[H|H]|(d' & H1 & H2)]; [tauto| |].
        * right. exists d. tauto.
        * right. exists d'. tauto.
      + intros [H|(d' & [<-|H1] & H2)]; [tauto|tauto|].
        right. exists d'. tauto. }
  rewrite G. simpl. tauto.
Qed.

Lemma align_rows_map {A : Type} (wa wb : nat) (f g : A -> list value) (l : list A) :
  pd.align_rows wa wb (map f l) (map g l) = map (fun x => (f x ++ g x)%list) l.
Proof.
  induction l as [|x l IH]; simpl; [reflexivity|]. now rewrite IH.
Qed.

(* ================================================================= *)
(** ** The library calls of [_flatten_column] *)

Lemma objects_as_VDict (l : list value) :
  forallb is_object l = true <-> l = map VDict (map fields l).
Proof.
  induction l as [|v l IH]; simpl; [tauto|].
  rewrite andb_true_iff, IH. split.
  - intros [Hv Hl]. destruct v; try discriminate. simpl. now f_equal.
  - intros E. injection E as Ev El. split; [|exact El].
    rewrite Ev. reflexivity.
Qed.

Lemma from_records_objects (records : list (list (string * value))) :
  pd.from_records (map VDict records)
  = Returns {| columns := pd.unique_keys records;
               rows := map (pd.record_cells (pd.unique_keys records)) records |}.
Proof.
  destruct records as [|d records]; [reflexivity|].
  change (map VDict (d :: records)) with (VDict d :: map VDict records).
  unfold pd.from_records.
  assert (E : traverse pd.as_record (VDict d :: map VDict records)
              = Returns (d :: records)) by now apply traverse_as_record.
  now rewrite E.
Qed.

Lemma from_records_Returns (data : list value) (f : DataFrame) :
  pd.from_records data = Returns f -> forallb is_object data = true.
Proof.
  destruct data as [|v data]; [reflexivity|].
  destruct v; try discriminate.
  unfold pd.from_records. intros E.
  apply obind_Returns in E as (records & E & _).
  apply traverse_as_record in E. rewrite E.
  clear. induction records; simpl; [reflexivity|assumption].
Qed.

Lemma explode_Returns (df exploded : DataFrame) (column : string) :
  pd.explode df column = Returns exploded ->
  is_unique (columns df) = true /\ has_column df column = true
  /\ columns exploded = columns df.
Proof.
  unfold pd.explode.
  destruct (is_unique (columns df)); simpl; [|discriminate].
  destruct (has_column df column); simpl; [|discriminate].
  intros E. apply obind_Returns in E as (groups & _ & E).
  injection E as <-. auto.
Qed.

Lemma explode_Raises_KeyError (df : DataFrame) (column : string) :
  pd.explode df column = Raises KeyError -> is_unique (columns df) = true.
Proof.
  unfold pd.explode. destruct (is_unique (columns df)); simpl; [reflexivity|discriminate].
Qed.

Lemma after_try_Returns (df exploded : DataFrame) (column : string) :
  after_try df column = Returns exploded ->
  is_unique (columns df) = true /\ columns exploded = columns df.
Proof.
  unfold after_try; simpl.
  destruct (pd.explode df column) as [e|x|] eqn:E; try discriminate.
  - intros H. injection H as <-. apply explode_Returns in E. tauto.
  - destruct x; try discriminate. intros H. injection H as <-.
    apply explode_Raises_KeyError in E. auto.
Qed.

(** The program, spelled out on table values. *)
Lemma flatten_unfold (df : DataFrame) (column : string) :
  _flatten_column df column
  = obind (after_try df column) (fun df' =>
    obind (pd.drop df' column) (fun dropped =>
    obind (pd.getitem df' column) (fun nested =>
    obind (pd.from_records nested) (fun records =>
    Returns (pd.concat dropped records))))).
Proof. reflexivity. Qed.

(** After the [try] statement, a table that has the column and holds
    objects in it is merged row by row. *)
Lemma flatten_after_try (df exploded : DataFrame) (column : string) :
  after_try df column = Returns exploded ->
  has_column df column = true ->
  forallb is_object (map (cell (columns df) column) (rows exploded)) = true ->
  _flatten_column df column = Returns (merged exploded column).
Proof.
  intros Htry Hcol Hobj.
  destruct (after_try_Returns _ _ _ Htry) as [Huniq Hcols].
  rewrite flatten_unfold, Htry. simpl.
  unfold pd.drop, pd.getitem, has_column. rewrite Hcols.
  unfold has_column in Hcol. rewrite Hcol, Huniq. simpl.
  apply objects_as_VDict in Hobj. rewrite Hobj, from_records_objects. simpl.
  unfold pd.concat, merged. simpl. rewrite Hcols. f_equal. f_equal.
  - now rewrite !map_map.
  - rewrite !map_map.
    rewrite (align_rows_map _ _ (drop_cell (columns df) column)
               (fun row => pd.record_cells
                             (pd.unique_keys
                                (map (fun x => fields (cell (columns df) column x))
                                     (rows exploded)))
                             (fields (cell (columns df) column row)))).
    reflexivity.
Qed.

(** Conversely, that is the only way for the flattener to return. *)
Lemma flatten_Returns (df out : DataFrame) (column : string) :
  _flatten_column df column = Returns out ->
  exists exploded,
    after_try df column = Returns exploded
    /\ has_column df column = true
    /\ forallb is_object (map (cell (columns df) column) (rows exploded)) = true
    /\ out = merged exploded column.
Proof.
  intros H. pose proof H as H0. rewrite flatten_unfold in H.
  apply obind_Returns in H as (exploded & Htry & H).
  apply obind_Returns in H as (dropped & Hdrop & H).
  apply obind_Returns in H as (nested & Hget & H).
  apply obind_Returns in H as (records & Hrec & _).
  destruct (after_try_Returns _ _ _ Htry) as [Huniq Hcols].
  assert (Hcol : has_column df column = true).
  { unfold pd.drop, has_column in Hdrop. rewrite Hcols in Hdrop.
    unfold has_column. now destruct (existsb _ (columns df)). }
  assert (Hobj : forallb is_object (map (cell (columns df) column) (rows exploded)) = true).
  { unfold pd.getitem, has_column in Hget. rewrite Hcols in Hget.
    unfold has_column in Hcol. rewrite Hcol, Huniq in Hget. simpl in Hget.
    injection Hget as <-. now apply from_records_Returns in Hrec. }
  exists exploded. repeat split; try assumption.
  rewrite (flatten_after_try _ _ _ Htry Hcol Hobj) in H0. now injection H0.
Qed.

(* ================================================================= *)
(** ** Flattening *)

(** C1, as the specification states it, fails: on the empty table with no
    columns the flattener does not return the table, it raises [KeyError]. *)
Lemma flatten_absent_column_is_not_a_no_op :
  has_column empty_table "aqis" = false
  /\ _flatten_column empty_table "aqis" = Raises KeyError
  /\ _flatten_column empty_table "aqis" <> Returns empty_table.
Proof. split; [reflexivity|split; [reflexivity|discriminate]]. Qed.

(** C1 (amended): when the table has no column of the given name, the
    empty table with no columns included, the flattener returns no table.
    The [KeyError] of [explode] is swallowed by the [try] statement, and
    [drop] then raises [KeyError] for the same missing label; a table whose
    labels are not unique is refused by [explode] with [ValueError]. *)
Theorem flatten_absent_column_raises (df : DataFrame) (column : string) :
  has_column df column = false ->
  after_try df column
  = (if is_unique (columns df) then Returns df else Raises ValueError)
  /\ _flatten_column df column
     = Raises (if is_unique (columns df) then KeyError else ValueError).
Proof.
  intros Hcol.
  assert (Htry : after_try df column
                 = if is_unique (columns df) then Returns df else Raises ValueError).
  { unfold after_try; simpl. unfold pd.explode. rewrite Hcol.
    now destruct (is_unique (columns df)). }
  split; [exact Htry|].
  rewrite flatten_unfold, Htry.
  destruct (is_unique (columns df)); simpl; [|reflexivity].
  unfold pd.drop. now rewrite Hcol.
Qed.

Lemma flatten_absent_column_raises_witness :
  has_column {| columns := ["component"]; rows := [[VStr "NO2"]] |} "aqis" = false
  /\ _flatten_column {| columns := ["component"]; rows := [[VStr "NO2"]] |} "aqis"
     = Raises KeyError.
Proof.
  split; [reflexivity|].
  apply (proj2 (flatten_absent_column_raises
                  {| columns := ["component"]; rows := [[VStr "NO2"]] |} "aqis"
                  eq_refl)).
Defined.

(** C4, as the specification states it, fails: a nested object may have a
    key with the name of the nested column, and the flattened table then has
    a column of that name. *)
Lemma flatten_can_keep_the_column_name :
  has_column {| columns := ["aqis"]; rows := [[VList [VDict [("aqis", VNum 1)]]]] |}
             "aqis" = true
  /\ _flatten_column
       {| columns := ["aqis"]; rows := [[VList [VDict [("aqis", VNum 1)]]]] |} "aqis"
     = Returns {| columns := ["aqis"]; rows := [[VNum 1]] |}.
Proof. split; reflexivity. Qed.

(** *** Step 1 on the tables the flattener is written for *)

Lemma explode_lists (df : DataFrame) (column : string) :
  is_unique (columns df) = true ->
  has_column df column = true ->
  forallb is_nonempty_list_of_objects (map (cell (columns df) column) (rows df)) = true ->
  pd.explode df column
  = Returns {| columns := columns df; rows := exploded_rows df column |}.
Proof.
  intros Huniq Hcol Hcells. unfold pd.explode. rewrite Huniq, Hcol. simpl.
  rewrite (traverse_Returns _
             (fun row => map (fun e => set_cell (columns df) column e row)
                             (nested (cell (columns df) column row)))).
  - simpl. unfold exploded_rows. now rewrite flat_map_concat_map.
  - intros row Hrow. unfold pd.explode_row.
    rewrite forallb_forall in Hcells.
    specialize (Hcells (cell (columns df) column row) (in_map _ _ _ Hrow)).
    destruct (cell (columns df) column row) as [| | | | |l|]; try discriminate.
    destruct l; [discriminate|reflexivity].
Qed.

(** Merging the exploded rows is flattening the input rows one by one. *)
Lemma merge_exploded_rows (labels : list string) (column : string)
  (keys : list string) (rs : list (list value)) :
  (forall row, In row rs -> cell labels column row <> NaN) ->
  map (merge_row labels column keys)
      (flat_map (fun row => map (fun e => set_cell labels column e row)
                                (nested (cell labels column row))) rs)
  = flat_map (fun row => map (flattened_row labels column keys row)
                             (nested (cell labels column row))) rs.
Proof.
  induction rs as [|row rs IH]; intros Hrs; simpl; [reflexivity|].
  rewrite map_app, IH by (intros r Hr; apply Hrs; now right).
  f_equal. rewrite map_map. apply map_ext. intros e.
  unfold merge_row, flattened_row.
  rewrite drop_cell_set_cell, cell_set_cell; [reflexivity|].
  apply Hrs. now left.
Qed.

Lemma cells_of_exploded_rows (labels : list string) (column : string)
  (rs : list (list value)) :
  (forall row, In row rs -> cell labels column row <> NaN) ->
  map (fun row => fields (cell labels column row))
      (flat_map (fun row => map (fun e => set_cell labels column e row)
                                (nested (cell labels column row))) rs)
  = map fields (flat_map (fun row => nested (cell labels column row)) rs).
Proof.
  induction rs as [|row rs IH]; intros Hrs; simpl; [reflexivity|].
  rewrite !map_app, IH by (intros r Hr; apply Hrs; now right).
  f_equal. rewrite map_map. apply map_ext. intros e.
  rewrite cell_set_cell; [reflexivity|]. apply Hrs. now left.
Qed.

Lemma cell_values_of_exploded_rows (labels : list string) (column : string)
  (rs : list (list value)) :
  (forall row, In row rs -> cell labels column row <> NaN) ->
  map (cell labels column)
      (flat_map (fun row => map (fun e => set_cell labels column e row)
                                (nested (cell labels column row))) rs)
  = flat_map (fun row => nested (cell labels column row)) rs.
Proof.
  induction rs as [|row rs IH]; intros Hrs; simpl; [reflexivity|].
  rewrite !map_app, IH by (intros r Hr; apply Hrs; now right).
  f_equal. rewrite map_map. rewrite <- (map_id (nested _)) at 2.
  apply map_ext. intros e. apply cell_set_cell. apply Hrs. now left.
Qed.

Lemma merged_exploded (df : DataFrame) (column : string) :
  (forall row, In row (rows df) -> cell (columns df) column row <> NaN) ->
  merged {| columns := columns df; rows := exploded_rows df column |} column
  = flattened df column.
Proof.
  intros Hrs. unfold merged, flattened, nested_keys, exploded_rows; simpl.
  rewrite cells_of_exploded_rows by exact Hrs.
  now rewrite merge_exploded_rows by exact Hrs.
Qed.

Lemma flat_map_length_change {A B : Type} (f : A -> list B) (l : list A) :
  (Z.of_nat (List.length (flat_map f l)) - Z.of_nat (List.length l))%Z
  = fold_right Z.add 0%Z (map (fun x => (Z.of_nat (List.length (f x)) - 1)%Z) l).
Proof.
  induction l as [|x l IH]; simpl fold_right; simpl flat_map; [reflexivity|].
  rewrite <- IH, length_app. simpl List.length. lia.
Qed.

(** C2, as the specification states it, fails: a row whose nested list is
    empty (length 0) does not give 0 rows, nor any table; [explode] turns
    the empty list into one [NaN] cell and building records from it raises
    [TypeError]. *)
Lemma flatten_empty_list_raises :
  has_column {| columns := ["component"; "aqis"]; rows := [[VStr "NO2"; VList []]] |}
             "aqis" = true
  /\ _flatten_column
       {| columns := ["component"; "aqis"]; rows := [[VStr "NO2"; VList []]] |} "aqis"
     = Raises TypeError.
Proof. split; reflexivity. Qed.

Lemma flattenable_Returns (df : DataFrame) (column : string) :
  flattenable df column = true ->
  _flatten_column df column = Returns (flattened df column).
Proof.
  intros Hf. unfold flattenable in Hf.
  apply andb_true_iff in Hf as [Hf Hlists].
  apply andb_true_iff in Hf as [Huniq Hcol].
  assert (Hrs : forall row, In row (rows df) ->
                  cell (columns df) column row <> NaN).
  { intros row Hrow. rewrite forallb_forall in Hlists.
    specialize (Hlists _ (in_map _ _ _ Hrow)).
    now destruct (cell (columns df) column row). }
  rewrite <- (merged_exploded df column Hrs).
  apply flatten_after_try; [|exact Hcol|].
  - unfold after_try; simpl. now rewrite explode_lists.
  - simpl. unfold exploded_rows.
    rewrite cell_values_of_exploded_rows by exact Hrs.
    apply forallb_forall. intros e He.
    apply in_flat_map in He as (row & Hrow & He).
    rewrite forallb_forall in Hlists.
    specialize (Hlists _ (in_map _ _ _ Hrow)).
    destruct (cell (columns df) column row) as [| | | | |l|]; try discriminate.
    destruct l as [|x l]; [discriminate|].
    unfold is_nonempty_list_of_objects in Hlists.
    rewrite forallb_forall in Hlists. now apply Hlists.
Qed.

Lemma nested_keys_In (df : DataFrame) (column k : string) :
  In k (nested_keys df column)
  <-> exists row e,
        In row (rows df) /\ In e (nested (cell (columns df) column row))
        /\ In k (map fst (fields e)).
Proof.
  unfold nested_keys. rewrite unique_keys_In. split.
  - intros (d & Hd & Hk). apply in_map_iff in Hd as (e & <- & He).
    apply in_flat_map in He as (row & Hrow & He). now exists row, e.
  - intros (row & e & Hrow & He & Hk). exists (fields e). split; [|exact Hk].
    apply in_map_iff. exists e. split; [reflexivity|].
    apply in_flat_map. now exists row.
Qed.

(** C2 (amended): on a table with unique labels whose nested column holds
    only non-empty lists of objects, the flattener returns and drops no
    row. A row whose list has N objects gives exactly N output rows, in list
    order, each made of the untouched cells of the row followed by the
    fields of one of the objects. The number of rows grows by the sum over
    the rows of (N - 1). *)
Theorem flatten_explodes_rows (df : DataFrame) (column : string) :
  flattenable df column = true ->
  _flatten_column df column = Returns (flattened df column)
  /\ rows (flattened df column)
     = flat_map (fun row =>
                   map (fun e => (drop_cell (columns df) column row
                                  ++ pd.record_cells (nested_keys df column) (fields e))%list)
                       (nested (cell (columns df) column row)))
                (rows df)
  /\ (forall row, In row (rows df) ->
        exists e es,
          cell (columns df) column row = VList (e :: es)
          /\ List.length (map (flattened_row (columns df) column
                                 (nested_keys df column) row)
                              (nested (cell (columns df) column row)))
             = S (List.length es))
  /\ (Z.of_nat (nrows (flattened df column)) - Z.of_nat (nrows df))%Z
     = row_count_change df column.
Proof.
  intros Hf. split; [now apply flattenable_Returns|]. split; [reflexivity|].
  split.
  - intros row Hrow. unfold flattenable in Hf.
    apply andb_true_iff in Hf as [_ Hlists].
    rewrite forallb_forall in Hlists.
    specialize (Hlists _ (in_map _ _ _ Hrow)).
    destruct (cell (columns df) column row) as [| | | | |l|]; try discriminate.
    destruct l as [|e es]; [discriminate|].
    exists e, es. split; [reflexivity|]. now rewrite length_map.
  - unfold nrows, flattened, row_count_change; simpl.
    rewrite flat_map_length_change.
    f_equal. apply map_ext. intros row. now rewrite length_map.
Qed.

Lemma flatten_explodes_rows_witness :
  flattenable aqis_table "aqis" = true
  /\ _flatten_column aqis_table "aqis"
     = Returns {| columns := ["component"; "value"];
                  rows := [[VStr "NO2"; VNum 1]; [VStr "NO2"; VNum 2]] |}
  /\ row_count_change aqis_table "aqis" = 1%Z.
Proof.
  destruct (flatten_explodes_rows aqis_table "aqis" eq_refl) as (E & _ & _ & C).
  split; [reflexivity|]. split; [exact E|]. rewrite <- C. reflexivity.
Defined.

(** C4 (amended): on a table with unique labels whose nested column holds
    only non-empty lists of objects, the flattener returns a table whose
    columns are the other columns of the input, in their order and none of
    them named after the nested column, followed by the keys of the nested
    objects in order of first appearance; every row is the untouched cells
    of an input row followed, key by key, by the values one nested object
    has for the new columns. So the result has a column named after the
    nested column exactly when a nested object has a key of that name. *)
Theorem flatten_replaces_column (df : DataFrame) (column : string) :
  flattenable df column = true ->
  _flatten_column df column = Returns (flattened df column)
  /\ columns (flattened df column)
     = (drop_label (columns df) column ++ nested_keys df column)%list
  /\ ~ In column (drop_label (columns df) column)
  /\ (forall k, In k (nested_keys df column)
                <-> exists row e,
                      In row (rows df)
                      /\ In e (nested (cell (columns df) column row))
                      /\ In k (map fst (fields e)))
  /\ (In column (columns (flattened df column))
      <-> exists row e,
            In row (rows df) /\ In e (nested (cell (columns df) column row))
            /\ In column (map fst (fields e)))
  /\ rows (flattened df column)
     = flat_map (fun row =>
                   map (fun e => (drop_cell (columns df) column row
                                  ++ map (fun k => pd.dict_get k (fields e))
                                         (nested_keys df column))%list)
                       (nested (cell (columns df) column row)))
                (rows df).
Proof.
  intros Hf. split; [now apply flattenable_Returns|]. split; [reflexivity|].
  split; [apply drop_label_not_In|]. split; [intros k; apply nested_keys_In|].
  split; [|reflexivity].
  simpl columns. rewrite in_app_iff, nested_keys_In. split; [|tauto].
  intros [Hin|H]; [|exact H]. now apply drop_label_not_In in Hin.
Qed.

Lemma flatten_replaces_column_witness :
  flattenable aqis_table "aqis" = true
  /\ _flatten_column aqis_table "aqis"
     = Returns {| columns := ["component"; "value"];
                  rows := [[VStr "NO2"; VNum 1]; [VStr "NO2"; VNum 2]] |}
  /\ ~ In "aqis" ["component"; "value"].
Proof.
  destruct (flatten_replaces_column aqis_table "aqis" eq_refl)
    as (E & _ & _ & _ & Hin & _).
  split; [reflexivity|]. split; [exact E|].
  intros H. apply Hin in H as (row & e & Hrow & He & Hk).
  destruct Hrow as [<-|[]]. simpl in He.
  destruct He as [<-|[<-|[]]]; simpl in Hk; destruct Hk as [Hk|[]]; discriminate.
Defined.

(* ================================================================= *)
(** ** The heap reading *)

Lemma nth_error_alloc (h fresh : heap) (o : object) :
  nth_error (h ++ o :: fresh)%list (List.length h) = Some o.
Proof. rewrite nth_error_app2, Nat.sub_diag by lia. reflexivity. Qed.

Lemma nth_error_old (h fresh : heap) (r : ref) (o : object) :
  nth_error h r = Some o -> nth_error (h ++ fresh)%list r = Some o.
Proof.
  intros E. rewrite nth_error_app1; [exact E|].
  apply nth_error_Some. congruence.
Qed.

Lemma extends_refl (h : heap) : extends h h.
Proof. exists []. now rewrite app_nil_r. Qed.

Lemma extends_alloc (h h' : heap) (o : object) :
  extends h h' -> extends h (h' ++ [o])%list.
Proof. intros (fresh & ->). exists (fresh ++ [o])%list. now rewrite app_assoc. Qed.

Lemma extends_lookup (h h' : heap) (r : ref) (o : object) :
  extends h h' -> nth_error h r = Some o -> nth_error h' r = Some o.
Proof. intros (fresh & ->). apply nth_error_old. Qed.

Lemma frame_call_run (f : DataFrame -> outcome DataFrame) (r : ref) (h : heap)
  (df : DataFrame) :
  nth_error h r = Some (ODataFrame df) ->
  allocates (frame_call f r) h (omap ODataFrame (f df)).
Proof.
  intros E. unfold allocates, frame_call, hbind, read_frame, hlift, alloc, omap.
  rewrite E. now destruct (f df).
Qed.

Lemma heap_getitem_run (r : ref) (column : string) (h : heap) (df : DataFrame) :
  nth_error h r = Some (ODataFrame df) ->
  allocates (heap_getitem r column) h (omap OSeries (pd.getitem df column)).
Proof.
  intros E. unfold allocates, heap_getitem, hbind, read_frame, hlift, alloc, omap.
  rewrite E. now destruct (pd.getitem df column).
Qed.

Lemma heap_from_records_run (r : ref) (h : heap) (s : Series) :
  nth_error h r = Some (OSeries s) ->
  allocates (heap_from_records r) h (omap ODataFrame (pd.from_records s)).
Proof.
  intros E. unfold allocates, heap_from_records, hbind, read_series, hlift, alloc, omap.
  rewrite E. now destruct (pd.from_records s).
Qed.

Lemma heap_concat_run (ra rb : ref) (h : heap) (a b : DataFrame) :
  nth_error h ra = Some (ODataFrame a) ->
  nth_error h rb = Some (ODataFrame b) ->
  heap_concat ra rb h
  = (Returns (List.length h), (h ++ [ODataFrame (pd.concat a b)])%list).
Proof.
  intros Ea Eb. unfold heap_concat, hbind, read_frame, alloc. now rewrite Ea, Eb.
Qed.

Lemma merge_step_run (r : ref) (column : string) (h : heap) (df : DataFrame) :
  nth_error h r = Some (ODataFrame df) ->
  simulates (run (merge_step r column) h) h (merge_step df column).
Proof.
  intros E. unfold run, merge_step. simpl bind. simpl df_drop. simpl df_getitem.
  simpl df_from_records. simpl pd_concat.
  unfold hbind at 1.
  pose proof (frame_call_run (fun df => pd.drop df column) r h df E) as Hdrop.
  fold (heap_drop r column) in Hdrop.
  destruct (pd.drop df column) as [dropped|e|]; simpl in Hdrop |- *; rewrite Hdrop;
    [|exists h; split; [apply extends_refl|reflexivity]..].
  set (h1 := (h ++ [ODataFrame dropped])%list).
  assert (X1 : extends h h1) by (apply extends_alloc, extends_refl).
  unfold hbind at 1.
  pose proof (heap_getitem_run r column h1 df (extends_lookup _ _ _ _ X1 E)) as Hget.
  destruct (pd.getitem df column) as [s|e|]; simpl in Hget |- *; rewrite Hget;
    [|exists h1; split; [exact X1|reflexivity]..].
  set (h2 := (h1 ++ [OSeries s])%list).
  assert (X2 : extends h h2) by (apply extends_alloc, X1).
  unfold hbind at 1.
  pose proof (heap_from_records_run (List.length h1) h2 s (nth_error_alloc h1 [] _)) as Hrec.
  destruct (pd.from_records s) as [records|e|]; simpl in Hrec |- *; rewrite Hrec;
    [|exists h2; split; [exact X2|reflexivity]..].
  set (h3 := (h2 ++ [ODataFrame records])%list).
  exists h3. split; [apply extends_alloc, X2|].
  apply heap_concat_run.
  - unfold h3, h2. apply nth_error_old, nth_error_old. unfold h1. apply nth_error_alloc.
  - unfold h3. apply nth_error_alloc.
Qed.

Lemma simulates_extends (run : outcome ref * heap) (h0 h : heap)
  (o : outcome DataFrame) :
  extends h0 h -> simulates run h o -> simulates run h0 o.
Proof.
  intros (fresh & ->) Hsim.
  destruct o; simpl in *; destruct Hsim as (h' & (fresh' & ->) & Hrun);
    exists ((h0 ++ fresh) ++ fresh')%list; (split; [|exact Hrun]);
    exists (fresh ++ fresh')%list; now rewrite app_assoc.
Qed.

Lemma flatten_heap_run (r : ref) (column : string) (h : heap) (df : DataFrame) :
  nth_error h r = Some (ODataFrame df) ->
  simulates (run (_flatten_column r column) h) h (_flatten_column df column).
Proof.
  intros E. unfold run.
  change (_flatten_column (M := Heap) r column h)
    with (hbind (heap_try (heap_explode r column) (hlift (Returns r)))
                (fun r' => merge_step r' column) h).
  change (_flatten_column df column)
    with (obind (after_try df column) (fun df' => merge_step df' column)).
  unfold hbind, heap_try, after_try. simpl try_except_KeyError. simpl df_explode.
  pose proof (frame_call_run (fun df => pd.explode df column) r h df E) as Hex.
  fold (heap_explode r column) in Hex.
  destruct (pd.explode df column) as [exploded|e|]; simpl in Hex |- *; rewrite Hex.
  - apply (simulates_extends _ h (h ++ [ODataFrame exploded])%list).
    + apply extends_alloc, extends_refl.
    + apply merge_step_run, nth_error_alloc.
  - destruct e; simpl;
      try (exists h; split; [apply extends_refl|reflexivity]).
    now apply merge_step_run.
  - exists h. split; [apply extends_refl|reflexivity].
Qed.

Lemma flatten_heap_no_frame (r : ref) (column : string) (h : heap) :
  (forall df, nth_error h r <> Some (ODataFrame df)) ->
  run (_flatten_column r column) h = (Unmodelled, h).
Proof.
  intros E. unfold run.
  change (_flatten_column (M := Heap) r column h)
    with (hbind (heap_try (heap_explode r column) (hlift (Returns r)))
                (fun r' => merge_step r' column) h).
  unfold hbind, heap_try, heap_explode, frame_call, hbind, read_frame.
  destruct (nth_error h r) as [[df|s]|]; try reflexivity.
  now destruct (E df).
Qed.

(** C8: the flattener has no effect on the objects that exist when it is
    called. On any heap, for any reference and column name, the heap after
    the call is the heap before it followed by newly allocated objects, so
    the input table (and every other object) is still there with the same
    rows and columns; a returned table is one of the new objects, never the
    input; and what is returned or raised is what the flattener gives on the
    value of the input table. *)
Theorem flatten_leaves_input_unmodified (h : heap) (r : ref) (column : string) :
  extends h (snd (run (_flatten_column r column) h))
  /\ (forall (r0 : ref) (o : object),
        nth_error h r0 = Some o ->
        nth_error (snd (run (_flatten_column r column) h)) r0 = Some o)
  /\ (forall out : ref,
        fst (run (_flatten_column r column) h) = Returns out ->
        (List.length h <= out)%nat /\ out <> r
        /\ exists t, nth_error (snd (run (_flatten_column r column) h)) out
                     = Some (ODataFrame t))
  /\ (forall df : DataFrame,
        nth_error h r = Some (ODataFrame df) ->
        simulates (run (_flatten_column r column) h) h (_flatten_column df column)).
Proof.
  assert (Hext : extends h (snd (run (_flatten_column r column) h))
                 /\ (forall out : ref,
                        fst (run (_flatten_column r column) h) = Returns out ->
                        (List.length h <= out)%nat /\ (r < List.length h)%nat
                        /\ exists t, nth_error (snd (run (_flatten_column r column) h)) out
                                     = Some (ODataFrame t))).
  { destruct (nth_error h r) as [[df|s]|] eqn:E.
    - pose proof (flatten_heap_run r column h df E) as Hsim.
      assert (Hr : (r < List.length h)%nat) by (apply nth_error_Some; congruence).
      destruct (_flatten_column df column) as [t|e|]; unfold simulates in Hsim;
        destruct Hsim as (h' & Hh' & ->); simpl.
      + split; [now apply extends_alloc|].
        intros out Hout. injection Hout as <-.
        destruct Hh' as (fresh & ->).
        split; [rewrite length_app; lia|]. split; [exact Hr|].
        exists t. apply nth_error_alloc.
      + split; [exact Hh'|discriminate].
      + split; [exact Hh'|discriminate].
    - rewrite flatten_heap_no_frame by (intros df; congruence).
      split; [apply extends_refl|discriminate].
    - rewrite flatten_heap_no_frame by (intros df; congruence).
      split; [apply extends_refl|discriminate]. }
  destruct Hext as [Hext Hout].
  split; [exact Hext|]. split; [|split].
  - intros r0 o. now apply extends_lookup.
  - intros out Ho. destruct (Hout out Ho) as (Hle & Hr & Ht).
    split; [exact Hle|]. split; [lia|exact Ht].
  - intros df. apply flatten_heap_run.
Qed.

Lemma flatten_leaves_input_unmodified_witness :
  nth_error [ODataFrame aqis_table] 0 = Some (ODataFrame aqis_table)
  /\ nth_error (snd (run (_flatten_column 0%nat "aqis") [ODataFrame aqis_table])) 0
     = Some (ODataFrame aqis_table)
  /\ fst (run (_flatten_column 0%nat "aqis") [ODataFrame aqis_table]) = Returns 5%nat.
Proof.
  split; [reflexivity|]. split; [|reflexivity].
  apply (proj1 (proj2 (flatten_leaves_input_unmodified
                         [ODataFrame aqis_table] 0%nat "aqis"))).
  reflexivity.
Defined.

(* ================================================================= *)
(** ** Dates *)

Local Open Scope Z_scope.

Lemma digit_digit_char (n : Z) : 0 <= n <= 9 -> digit (digit_char n) = Some n.
Proof.
  intros H. rewrite <- (Z2Nat.id n) by lia.
  assert (B : (Z.to_nat n < 10)%nat) by lia. revert B.
  generalize (Z.to_nat n) as k. intros k B.
  do 10 (destruct k as [|k]; [reflexivity|]). lia.
Qed.



Lemma In_Z_range (lo : Z) (n : nat) (x : Z) :
  lo <= x < lo + Z.of_nat n -> In x (Z_range lo n).
Proof.
  intros H. unfold Z_range. apply in_map_iff.
  exists (Z.to_nat (x - lo)). split; [lia|].
  apply in_seq. lia.
Qed.

Lemma forallb_Z_range (f : Z -> bool) (lo : Z) (n : nat) :
  forallb f (Z_range lo n) = true ->
  forall x, lo <= x < lo + Z.of_nat n -> f x = true.
Proof. intros C x H. rewrite forallb_forall in C. apply C, In_Z_range, H. Qed.

Lemma year_four_digits (y : Z) :
  1000 <= y <= 9999 -> Z_to_string y = four_digits y.
Proof.
  intros H. apply String.eqb_eq.
  assert (G : forall y, 1000 <= y < 1000 + Z.of_nat (Z.to_nat 9000) ->
                (fun y => String.eqb (Z_to_string y) (four_digits y)) y = true).
  { apply forallb_Z_range. vm_compute. reflexivity. }
  apply G. lia.
Qed.

Lemma pad2_two_digits (n : Z) : 0 <= n <= 31 -> pad2 n = two_digits n.
Proof.
  intros H. apply String.eqb_eq.
  assert (G : forall n, 0 <= n < 0 + Z.of_nat 32 ->
                (fun n => String.eqb (pad2 n) (two_digits n)) n = true).
  { apply forallb_Z_range. reflexivity. }
  apply G. lia.
Qed.

Lemma days_in_month_le (y m : Z) : 28 <= days_in_month y m <= 31.
Proof.
  unfold days_in_month.
  destruct (m =? 2); [destruct (is_leap y); lia|].
  destruct ((m =? 4) || (m =? 6) || (m =? 9) || (m =? 11))%bool; lia.
Qed.

Lemma valid_date_bounds (y m d : Z) :
  valid_date y m d = true -> 1 <= y <= 9999 /\ 1 <= m <= 12 /\ 1 <= d <= 31.
Proof.
  unfold valid_date. rewrite !andb_true_iff.
  pose proof (days_in_month_le y m). lia.
Qed.

Lemma valid_time_bounds (hh mi ss ns : Z) :
  valid_time hh mi ss ns = true ->
  0 <= hh < 24 /\ 0 <= mi < 60 /\ 0 <= ss < 60 /\ 0 <= ns < 1000000000.
Proof. unfold valid_time. rewrite !andb_true_iff. lia. Qed.

(** The 64-bit nanosecond range holds the years 1677 to 2262 only. *)
Lemma in_bounds_year (ts : Timestamp) :
  valid_date (year ts) (month ts) (day ts) = true ->
  valid_time (hour ts) (minute ts) (second ts) (nanosecond ts) = true ->
  in_bounds ts = true ->
  1677 <= year ts <= 2262.
Proof.
  intros Hd Ht Hb.
  apply valid_date_bounds in Hd. apply valid_time_bounds in Ht.
  unfold in_bounds in Hb. apply andb_true_iff in Hb as [Hlo Hhi].
  apply Z.ltb_lt in Hlo. apply Z.leb_le in Hhi.
  unfold epoch_ns, days_from_civil in Hlo, Hhi.
  change (2 ^ 63) with 9223372036854775808 in Hlo, Hhi.
  destruct (month ts <=? 2) eqn:Em;
    [apply Z.leb_le in Em|apply Z.leb_gt in Em];
    Z.to_euclidean_division_equations; lia.
Qed.

Lemma strftime_iso_date (ts : Timestamp) :
  1000 <= year ts <= 9999 -> 0 <= month ts <= 31 -> 0 <= day ts <= 31 ->
  strftime_Ymd ts = iso_date (year ts) (month ts) (day ts).
Proof.
  intros Hy Hm Hd. unfold strftime_Ymd.
  rewrite (year_four_digits _ Hy), (pad2_two_digits _ Hm), (pad2_two_digits _ Hd).
  reflexivity.
Qed.

Lemma checked_Returns {lib : DateLibrary} (ts ts' : Timestamp) :
  checked ts = Returns ts' -> ts' = ts /\ accepts ts = true.
Proof.
  unfold checked. destruct (accepts ts); [|discriminate].
  intros E. injection E as <-. auto.
Qed.

Lemma checked_accepts {lib : DateLibrary} (ts : Timestamp) :
  accepts ts = true -> checked ts = Returns ts.
Proof. intros E. unfold checked. now rewrite E. Qed.

Lemma in_bounds_accepts {lib : DateLibrary} (ts : Timestamp) :
  in_bounds ts = true -> accepts ts = true.
Proof. intros E. unfold accepts. now rewrite E. Qed.

Lemma parse_iso_valid (s : string) (ts : Timestamp) :
  parse_iso s = Some ts ->
  valid_date (year ts) (month ts) (day ts) = true
  /\ valid_time (hour ts) (minute ts) (second ts) (nanosecond ts) = true.
Proof.
  unfold parse_iso.
  destruct (list_ascii_of_string s) as [|y1 [|y2 [|y3 [|y4 [|c1 [|m1 [|m2 [|c2
    [|d1 [|d2 rest]]]]]]]]]]; try discriminate.
  destruct (is_char c1 "-" && is_char c2 "-")%bool; [|discriminate].
  destruct (number 0 [y1; y2; y3; y4]) as [y|]; [|discriminate].
  destruct (number 0 [m1; m2]) as [m|]; [|discriminate].
  destruct (number 0 [d1; d2]) as [d|]; [|discriminate].
  destruct (parse_time rest) as [[[hh mi] ss]|]; [|discriminate].
  destruct (valid_date y m d && valid_time hh mi ss 0)%bool eqn:V; [|discriminate].
  intros E. injection E as <-. simpl. now apply andb_true_iff in V.
Qed.

(** What [to_datetime] returns is a date of the calendar that the library
    accepts, with the fields of its argument. *)
Lemma to_datetime_Returns {lib : DateLibrary} (x : datelike) (ts : Timestamp) :
  to_datetime x = Returns ts ->
  valid_date (year ts) (month ts) (day ts) = true
  /\ valid_time (hour ts) (minute ts) (second ts) (nanosecond ts) = true
  /\ accepts ts = true
  /\ match x with
     | DStr s => parse_iso s = Some ts
                 \/ (parse_iso s = None /\ free_form s = Reads ts)
     | DDate y m d => ts = mkTimestamp y m d 0 0 0 0
     | DTimestamp y m d hh mi ss ns => ts = mkTimestamp y m d hh mi ss ns
     end.
Proof.
  destruct x as [s|y m d|y m d hh mi ss ns]; simpl.
  - destruct (parse_iso s) as [t|] eqn:P.
    + intros E. apply checked_Returns in E as [-> B].
      destruct (parse_iso_valid _ _ P). auto.
    + destruct (free_form s) as [t| |] eqn:F; try discriminate.
      destruct (is_valid t) eqn:V; [|discriminate].
      intros E. apply checked_Returns in E as [-> B].
      apply andb_true_iff in V as [Vd Vt]. auto 6.
  - destruct (valid_date y m d) eqn:V; [|discriminate].
    intros E. apply checked_Returns in E as [-> B]. simpl. auto.
  - destruct (valid_date y m d && valid_time hh mi ss ns)%bool eqn:V; [|discriminate].
    intros E. apply checked_Returns in E as [-> B]. simpl.
    apply andb_true_iff in V. tauto.
Qed.

Lemma date_segment_strftime {lib : DateLibrary} (x : datelike) (ts : Timestamp) :
  to_datetime x = Returns ts -> date_segment x = Returns (strftime_Ymd ts).
Proof. intros E. unfold date_segment. now rewrite E. Qed.

(** From the year 1000 on the segment is the date in ten characters. *)
Lemma date_segment_Returns {lib : DateLibrary} (x : datelike) (ts : Timestamp) :
  to_datetime x = Returns ts ->
  1000 <= year ts ->
  date_segment x = Returns (iso_date (year ts) (month ts) (day ts)).
Proof.
  intros E Hy. rewrite (date_segment_strftime x ts E). f_equal.
  apply to_datetime_Returns in E as (Hd & _).
  apply valid_date_bounds in Hd.
  apply strftime_iso_date; lia.
Qed.

Lemma digit_mod_10 (n : Z) : digit (digit_char (n mod 10)) = Some (n mod 10).
Proof. apply digit_digit_char. pose proof (Z.mod_pos_bound n 10). lia. Qed.

Lemma number_four_digits (y : Z) :
  0 <= y <= 9999 ->
  number 0 [digit_char (y / 1000 mod 10); digit_char (y / 100 mod 10);
            digit_char (y / 10 mod 10); digit_char (y mod 10)] = Some y.
Proof.
  intros H. unfold number. rewrite !digit_mod_10.
  f_equal. Z.to_euclidean_division_equations. lia.
Qed.

Lemma number_two_digits (n : Z) :
  0 <= n <= 99 ->
  number 0 [digit_char (n / 10 mod 10); digit_char (n mod 10)] = Some n.
Proof.
  intros H. unfold number. rewrite !digit_mod_10.
  f_equal. Z.to_euclidean_division_equations. lia.
Qed.

Lemma parse_iso_date (y m d : Z) :
  valid_date y m d = true ->
  parse_iso (iso_date y m d) = Some (mkTimestamp y m d 0 0 0 0).
Proof.
  intros V. pose proof (valid_date_bounds _ _ _ V) as (Hy & Hm & Hd).
  unfold parse_iso, iso_date. cbn [list_ascii_of_string].
  change (is_char "-" "-" && is_char "-" "-")%bool with true. cbv iota.
  rewrite number_four_digits, !number_two_digits by lia.
  cbn [parse_time]. rewrite V. reflexivity.
Qed.


(** Away from the two boundary years every date and time of day fits. *)
Lemma in_bounds_inner_years (ts : Timestamp) :
  valid_date (year ts) (month ts) (day ts) = true ->
  valid_time (hour ts) (minute ts) (second ts) (nanosecond ts) = true ->
  1678 <= year ts <= 2261 ->
  in_bounds ts = true.
Proof.
  intros Hd Ht Hy.
  apply valid_date_bounds in Hd. apply valid_time_bounds in Ht.
  unfold in_bounds. apply andb_true_iff.
  rewrite Z.ltb_lt, Z.leb_le.
  unfold epoch_ns, days_from_civil.
  change (2 ^ 63) with 9223372036854775808.
  destruct (month ts <=? 2) eqn:Em;
    [apply Z.leb_le in Em|apply Z.leb_gt in Em];
    Z.to_euclidean_division_equations; lia.
Qed.

Lemma to_datetime_fields {lib : DateLibrary} (x : datelike) (ts : Timestamp) :
  valid_date (year ts) (month ts) (day ts) = true ->
  valid_time (hour ts) (minute ts) (second ts) (nanosecond ts) = true ->
  accepts ts = true ->
  match x with
  | DStr s => parse_iso s = Some ts
  | DDate y m d => ts = mkTimestamp y m d 0 0 0 0
  | DTimestamp y m d hh mi ss ns => ts = mkTimestamp y m d hh mi ss ns
  end ->
  to_datetime x = Returns ts.
Proof.
  intros Hd Ht Hb Hx.
  destruct x as [s|y m d|y m d hh mi ss ns]; simpl.
  - rewrite Hx. now apply checked_accepts.
  - subst ts. simpl in Hd. rewrite Hd. now apply checked_accepts.
  - subst ts. simpl in Hd, Ht. rewrite Hd, Ht. now apply checked_accepts.
Qed.

Lemma get_observations_trace {lib : DateLibrary}
  (network : string -> option Response) (self : NILUClient) (fromtime totime : datelike) (station : pyval)
  (components : option (list string)) (showinvalid : pyval) (f t : string) :
  date_segment fromtime = Returns f ->
  date_segment totime = Returns t ->
  trace (get_observations network self fromtime totime station components showinvalid)
  = [(base_url self ++ observations_path f t station ++ "?"
      ++ _stringify (observations_parameters components showinvalid))%string].
Proof.
  intros Ef Et. unfold get_observations. rewrite Ef, Et.
  pose proof (get_url_trace network self (observations_path f t station)
                (observations_parameters components showinvalid)) as Htr.
  unfold trace, io_lift, io_bind in *.
  destruct (_get_url network self _ _) as [tr [df|e|]]; simpl in *; subst tr;
    reflexivity.
Qed.









Local Close Scope Z_scope.

(** *** The parameters of the observations call *)

Lemma join_fold_left (x : string) (l : list string) :
  String.concat ";" (x :: l) = fold_left (fun acc c => acc ++ ";" ++ c) l x.
Proof.
  revert x. induction l as [|y l IH]; intros x; [reflexivity|].
  simpl fold_left. rewrite <- IH, !join_cons.
  destruct l as [|z l]; [reflexivity|].
  now rewrite append_assoc.
Qed.

(** The dates of the script: every library accepts them. *)
Lemma script_dates {lib : DateLibrary} :
  date_segment (DStr "2021-05-01") = Returns "2021-05-01"
  /\ date_segment (DStr "2021-05-02") = Returns "2021-05-02".
Proof. split; reflexivity. Qed.

(** C6: the [components] argument of the observations call is sent as its
    elements joined with [;] in sequence order: the first element, then
    every further element after a semicolon. The call requests the one URL
    whose query string begins with [components=] followed by the joined
    elements. For [["NOx", "PM10"]] the value is [NOx;PM10]. *)
Theorem components_joined_with_semicolon {lib : DateLibrary} :
  (forall l : list string, join_components (Some l) = PStr (String.concat ";" l))
  /\ (forall (x : string) (l : list string),
        join_components (Some (x :: l))
        = PStr (fold_left (fun acc c => acc ++ ";" ++ c) l x))
  /\ join_components (Some ["NOx"; "PM10"]) = PStr "NOx;PM10"
  /\ _stringify (observations_parameters (Some ["NOx"; "PM10"]) PNone)
     = "components=NOx;PM10"
  /\ (forall (network : string -> option Response) (self : NILUClient)
        (fromtime totime : datelike) (station showinvalid : pyval)
        (l : list string) (f t : string),
        date_segment fromtime = Returns f ->
        date_segment totime = Returns t ->
        trace (get_observations network self fromtime totime station (Some l)
                 showinvalid)
        = [base_url self ++ observations_path f t station ++ "?"
           ++ _stringify [("components", PStr (String.concat ";" l));
                          ("showinvalid", showinvalid)]]
        /\ _stringify [("components", PStr (String.concat ";" l));
                       ("showinvalid", showinvalid)]
           = amp ("components=" ++ String.concat ";" l)
                 (_stringify [("showinvalid", showinvalid)]))
  /\ (forall network : string -> option Response,
        trace (get_observations network __init__ (DStr "2021-05-01")
                 (DStr "2021-05-02") default_station (Some ["NOx"; "PM10"]) PNone)
        = ["https://api.nilu.no/obs/historical/2021-05-01/2021-05-02/all?components=NOx;PM10"]).
Proof.
  split; [reflexivity|]. split.
  { intros x l. unfold join_components. f_equal. apply join_fold_left. }
  split; [reflexivity|]. split; [reflexivity|]. split.
  - intros network self fromtime totime station showinvalid l f t Ef Et. split.
    + apply (get_observations_trace network self fromtime totime station (Some l)
               showinvalid f t Ef Et).
    + unfold _stringify, amp. cbn [stringify_items present negb].
      destruct showinvalid; reflexivity.
  - intros network. destruct script_dates as [Ef Et].
    now rewrite (get_observations_trace network __init__ _ _ default_station
                   (Some ["NOx"; "PM10"]) PNone _ _ Ef Et).
Qed.

Lemma components_joined_with_semicolon_witness :
  date_segment (lib := pandas_ns) (DDate 2021 5 1) = Returns "2021-05-01"
  /\ trace (get_observations (lib := pandas_ns) (fun _ => None) __init__
              (DDate 2021 5 1) (DDate 2021 5 2) (PStr "Danmarks plass")
              (Some ["NOx"; "PM10"; "O3"]) (PBool true))
     = ["https://api.nilu.no/obs/historical/2021-05-01/2021-05-02/Danmarks plass?components=NOx;PM10;O3&showinvalid=True"].
Proof.
  split; [reflexivity|].
  apply (proj1 (proj1 (proj2 (proj2 (proj2 (proj2
           (components_joined_with_semicolon (lib := pandas_ns))))))
           (fun _ => None) __init__ (DDate 2021 5 1) (DDate 2021 5 2)
           (PStr "Danmarks plass") (PBool true) ["NOx"; "PM10"; "O3"]
           "2021-05-01" "2021-05-02" eq_refl eq_refl)).
Defined.

(** C9: only [None] is left out. A parameter with any other value, [False],
    [0] and the empty string included, is emitted as [name=value] with the
    string form of the value, between the pairs of the parameters before and
    after it: the station lookup with [utd=False] requests the URL ending in
    [?utd=False]. An empty [components] sequence is joined to the empty
    string, which is not [None], so the observations call requests a URL
    whose query string begins with [components=], with an empty value. *)
Theorem stringify_emits_every_value_but_None {lib : DateLibrary} :
  (forall (ps qs : kwargs) (k : string) (v : pyval),
      v <> PNone ->
      stringify_items (ps ++ (k, v) :: qs)%list
      = (stringify_items ps ++ render (k, v) :: stringify_items qs)%list)
  /\ _stringify [("area", PNone); ("utd", PBool false)] = "utd=False"
  /\ _stringify [("station", PNone); ("component", PNone); ("timestep", PInt 0)]
     = "timestep=0"
  /\ _stringify [("area", PStr EmptyString); ("utd", PNone)] = "area="
  /\ (forall showinvalid : pyval,
        stringify_items (observations_parameters (Some []) showinvalid)
        = "components=" :: stringify_items [("showinvalid", showinvalid)])
  /\ _stringify (observations_parameters (Some []) PNone) = "components="
  /\ (forall (network : string -> option Response) (self : NILUClient),
        trace (get_stations network self PNone (PBool false))
        = [base_url self ++ "lookup/stations?utd=False"])
  /\ (forall (network : string -> option Response) (self : NILUClient)
        (fromtime totime : datelike) (station showinvalid : pyval) (f t : string),
        date_segment fromtime = Returns f ->
        date_segment totime = Returns t ->
        trace (get_observations network self fromtime totime station (Some [])
                 showinvalid)
        = [base_url self ++ observations_path f t station ++ "?"
           ++ String.concat "&"
                ("components=" :: stringify_items [("showinvalid", showinvalid)])])
  /\ (forall network : string -> option Response,
        trace (get_observations network __init__ (DStr "2021-05-01")
                 (DStr "2021-05-02") default_station (Some []) PNone)
        = ["https://api.nilu.no/obs/historical/2021-05-01/2021-05-02/all?components="]).
Proof.
  split.
  { intros ps qs k v Hv. rewrite stringify_items_app. simpl.
    destruct v; try reflexivity. congruence. }
  do 5 (split; [reflexivity|]). split; [|split].
  - intros network self. unfold get_stations. now rewrite get_url_trace.
  - intros network self fromtime totime station showinvalid f t Ef Et.
    apply (get_observations_trace network self fromtime totime station (Some [])
             showinvalid f t Ef Et).
  - intros network. destruct script_dates as [Ef Et].
    now rewrite (get_observations_trace network __init__ _ _ default_station
                   (Some []) PNone _ _ Ef Et).
Qed.

Lemma stringify_emits_every_value_but_None_witness :
  PBool false <> PNone
  /\ stringify_items ([("area", PStr "bergen")] ++ ("utd", PBool false) :: [])%list
     = (["area=bergen"] ++ ["utd=False"])%list.
Proof.
  split; [discriminate|].
  apply (proj1 (stringify_emits_every_value_but_None (lib := pandas_ns))
           [("area", PStr "bergen")] [] "utd" (PBool false)).
  discriminate.
Defined.

(* ================================================================= *)
(** ** The client *)

Lemma obind_no_HTTPError {A B : Type} (m : outcome A) (k : A -> outcome B) :
  raises_HTTPError m = false ->
  (forall a, raises_HTTPError (k a) = false) ->
  raises_HTTPError (obind m k) = false.
Proof. destruct m as [a|e|]; simpl; auto. Qed.

Lemma traverse_no_HTTPError {A B : Type} (f : A -> outcome B) (l : list A) :
  (forall x, raises_HTTPError (f x) = false) ->
  raises_HTTPError (traverse f l) = false.
Proof.
  intros Hf. induction l as [|x l IH]; simpl; [reflexivity|].
  apply obind_no_HTTPError; [apply Hf|]. intros y.
  apply obind_no_HTTPError; [exact IH|reflexivity].
Qed.

Lemma from_records_no_HTTPError (data : list value) :
  raises_HTTPError (pd.from_records data) = false.
Proof.
  destruct data as [|v data]; [reflexivity|].
  destruct v; try reflexivity.
  unfold pd.from_records. apply obind_no_HTTPError; [|reflexivity].
  apply traverse_no_HTTPError. now intros [].
Qed.

Lemma explode_no_HTTPError (df : DataFrame) (column : string) :
  raises_HTTPError (pd.explode df column) = false.
Proof.
  unfold pd.explode.
  destruct (is_unique (columns df)); [|reflexivity].
  destruct (has_column df column); [|reflexivity]. simpl.
  apply obind_no_HTTPError; [|reflexivity].
  apply traverse_no_HTTPError. intros row. unfold pd.explode_row.
  apply obind_no_HTTPError; [|reflexivity].
  destruct (cell (columns df) column row) as [| | | | |[|]|[|]]; reflexivity.
Qed.

Lemma flatten_no_HTTPError (df : DataFrame) (column : string) :
  raises_HTTPError (_flatten_column df column) = false.
Proof.
  rewrite flatten_unfold. apply obind_no_HTTPError.
  - unfold after_try; simpl.
    pose proof (explode_no_HTTPError df column) as H.
    destruct (pd.explode df column) as [t|e|]; try reflexivity.
    now destruct e.
  - intros t. apply obind_no_HTTPError.
    { unfold pd.drop. now destruct (has_column t column). }
    intros dropped. apply obind_no_HTTPError.
    { unfold pd.getitem. destruct (has_column t column); [|reflexivity].
      now destruct (is_unique (columns t)). }
    intros s. apply obind_no_HTTPError; [apply from_records_no_HTTPError|reflexivity].
Qed.

Lemma date_segment_no_HTTPError {lib : DateLibrary} (x : datelike) :
  raises_HTTPError (date_segment x) = false.
Proof.
  unfold date_segment. apply obind_no_HTTPError; [|reflexivity].
  assert (C : forall ts, raises_HTTPError (checked ts) = false).
  { intros ts. unfold checked. now destruct (accepts ts). }
  destruct x as [s|y m d|y m d hh mi ss ns]; simpl.
  - destruct (parse_iso s); [apply C|].
    destruct (free_form s) as [ts| |]; try reflexivity.
    destruct (is_valid ts); [apply C|reflexivity].
  - destruct (valid_date y m d); [apply C|reflexivity].
  - destruct (valid_date y m d && valid_time hh mi ss ns)%bool; [apply C|reflexivity].
Qed.

Lemma raises_HTTPError_false {A : Type} (m : outcome A) (s : Z) :
  raises_HTTPError m = false -> m <> Raises (HTTPError s).
Proof. intros H E. rewrite E in H. discriminate. Qed.

(** What [_get_url] does with the response to its one request. *)
Lemma get_url_result (network : string -> option Response) (self : NILUClient)
  (url : string) (q : kwargs) :
  result (_get_url network self url q)
  = match network (request_url self url q) with
    | None => Raises ConnectionError
    | Some response =>
        obind (raise_for_status response) (fun _ =>
        obind (response_json response) from_records_json)
    end.
Proof.
  unfold _get_url, requests_get, request_url, result, io_bind, io_lift.
  destruct (network _) as [response|]; [|reflexivity].
  destruct (raise_for_status response); try reflexivity.
  destruct (response_json response) as [data| |]; reflexivity.
Qed.

Lemma get_url_HTTPError (network : string -> option Response) (self : NILUClient)
  (url : string) (q : kwargs) (s : Z) :
  result (_get_url network self url q) = Raises (HTTPError s)
  <-> exists response,
        network (request_url self url q) = Some response
        /\ status_code response = s /\ is_error_status s = true.
Proof.
  rewrite get_url_result.
  destruct (network (request_url self url q)) as [response|].
  - unfold raise_for_status. fold (is_error_status (status_code response)).
    destruct (is_error_status (status_code response)) eqn:Es; simpl.
    + split.
      * intros E. injection E as <-. now exists response.
      * intros (r & E & <- & _). now injection E as <-.
    + split.
      * intros E. exfalso. revert E. apply raises_HTTPError_false.
        apply obind_no_HTTPError.
        { unfold response_json. now destruct (body response). }
        intros data. destruct data; try reflexivity.
        apply from_records_no_HTTPError.
      * intros (r & E & <- & Hs). injection E as <-. congruence.
  - split; [discriminate|]. intros (r & E & _). discriminate.
Qed.

(** Post-processing keeps the request and adds no [HTTPError]. *)
Lemma post_process_trace (m : IO DataFrame) (column : string) :
  trace (io_bind m (fun df => io_lift (_flatten_column df column))) = trace m.
Proof.
  destruct m as [t [df|e|]]; simpl; try reflexivity.
  unfold io_lift, trace. simpl. apply app_nil_r.
Qed.

Lemma post_process_result (m : IO DataFrame) (column : string) :
  result (io_bind m (fun df => io_lift (_flatten_column df column)))
  = obind (result m) (fun df => _flatten_column df column).
Proof. destruct m as [t [df|e|]]; reflexivity. Qed.

Lemma post_process_HTTPError (m : IO DataFrame) (column : string) (s : Z) :
  result (io_bind m (fun df => io_lift (_flatten_column df column)))
  = Raises (HTTPError s)
  <-> result m = Raises (HTTPError s).
Proof.
  rewrite post_process_result.
  destruct (result m) as [df|e|]; simpl; try tauto.
  split; [|discriminate].
  intros E. exfalso. revert E.
  apply raises_HTTPError_false, flatten_no_HTTPError.
Qed.

Lemma get_url_returns (network : string -> option Response) (self : NILUClient)
  (url : string) (q : kwargs) (response : Response)
  (records : list (list (string * value))) :
  network (request_url self url q) = Some response ->
  is_error_status (status_code response) = false ->
  body response = Some (VList (map VDict records)) ->
  result (_get_url network self url q)
  = Returns {| columns := pd.unique_keys records;
               rows := map (pd.record_cells (pd.unique_keys records)) records |}.
Proof.
  intros En Es Eb. rewrite get_url_result, En.
  unfold raise_for_status. fold (is_error_status (status_code response)).
  rewrite Es. simpl. unfold response_json. rewrite Eb. simpl.
  apply from_records_objects.
Qed.

(** The three facts for a plain lookup. *)
Lemma lookup_errors (network : string -> option Response) (self : NILUClient)
  (url : string) (q : kwargs) :
  let m := _get_url network self url q in
  (List.length (trace m) <= 1)%nat
  /\ (forall s, result m = Raises (HTTPError s)
                <-> exists u response,
                      trace m = [u] /\ network u = Some response
                      /\ status_code response = s /\ is_error_status s = true)
  /\ (forall u response records,
        trace m = [u] -> network u = Some response ->
        is_error_status (status_code response) = false ->
        body response = Some (VList (map VDict records)) ->
        result m = Returns {| columns := pd.unique_keys records;
                              rows := map (pd.record_cells (pd.unique_keys records))
                                          records |}).
Proof.
  intros m. subst m. rewrite get_url_trace. fold (request_url self url q).
  split; [simpl; lia|]. split.
  - intros s. rewrite get_url_HTTPError. split.
    + intros (response & H). exists (request_url self url q), response. tauto.
    + intros (u & response & Hu & H). injection Hu as <-. now exists response.
  - intros u response records Hu. injection Hu as <-. apply get_url_returns.
Qed.

(** The two facts for a lookup followed by the flattener. *)
Lemma processed_errors (network : string -> option Response) (self : NILUClient)
  (url : string) (q : kwargs) (column : string) :
  let m := io_bind (_get_url network self url q)
                   (fun df => io_lift (_flatten_column df column)) in
  (List.length (trace m) <= 1)%nat
  /\ (forall s, result m = Raises (HTTPError s)
                <-> exists u response,
                      trace m = [u] /\ network u = Some response
                      /\ status_code response = s /\ is_error_status s = true).
Proof.
  intros m. subst m. rewrite post_process_trace.
  destruct (lookup_errors network self url q) as (H1 & H2 & _).
  split; [exact H1|]. intros s. rewrite post_process_HTTPError. apply H2.
Qed.

Lemma io_bind_Returns {A B : Type} (a : A) (k : A -> IO B) :
  io_bind (io_lift (Returns a)) k = k a.
Proof. unfold io_bind, io_lift. now destruct (k a). Qed.

Ltac plain_lookup :=
  match goal with
  | |- context [_get_url ?network ?self ?url ?q] =>
      destruct (lookup_errors network self url q) as (H1 & H2 & H3);
      split; [exact H1|split; [exact H2|intros _; exact H3]]
  end.

(** C7, as the specification states it, fails in both directions: with the
    status 304, which is not a 2xx status, the areas lookup returns a table
    and raises no [HTTPError]; and with the status 200 and an empty JSON
    array the air-quality-index operation fails, with the [KeyError] of
    the flattener. *)
Lemma public_operations_other_outcomes :
  perform (lib := pandas_ns)
    (constant_network (mkResponse 304 (Some (VList [])))) __init__ GetAreas
  = (["https://api.nilu.no/lookup/areas?"], Returns empty_table)
  /\ perform (lib := pandas_ns)
       (constant_network (mkResponse 200 (Some (VList [])))) __init__
       (GetAirQualityIndex PNone PNone)
     = (["https://api.nilu.no/lookup/aqis?"], Raises KeyError).
Proof. split; reflexivity. Qed.

(** C7 (amended): every public operation issues at most one request and
    never repeats it. It fails with [HTTPError] exactly when that request
    was answered with a status from 400 to 599, the statuses
    [raise_for_status] rejects, and the error carries that status. The four
    plain lookups have no failure of their own: answered with any other
    status and a JSON array of objects they return the table of these
    objects. *)
Theorem public_operations_errors {lib : DateLibrary}
  (network : string -> option Response) (self : NILUClient) (c : call) :
  (List.length (trace (perform network self c)) <= 1)%nat
  /\ (forall s : Z,
        result (perform network self c) = Raises (HTTPError s)
        <-> exists url response,
              trace (perform network self c) = [url]
              /\ network url = Some response
              /\ status_code response = s /\ is_error_status s = true)
  /\ (post_processed c = false ->
      forall url response records,
        trace (perform network self c) = [url] ->
        network url = Some response ->
        is_error_status (status_code response) = false ->
        body response = Some (VList (map VDict records)) ->
        result (perform network self c)
        = Returns {| columns := pd.unique_keys records;
                     rows := map (pd.record_cells (pd.unique_keys records)) records |}).
Proof.
  destruct c as [|area utd| |component culture|station component timestep
                 |fromtime totime station components showinvalid]; simpl perform.
  - unfold get_areas. plain_lookup.
  - unfold get_stations. plain_lookup.
  - unfold get_components. plain_lookup.
  - unfold get_air_quality_index.
    destruct (processed_errors network self "lookup/aqis"
                [("component", component); ("culture", culture)] "aqis") as [H1 H2].
    split; [exact H1|]. split; [exact H2|discriminate].
  - unfold get_timeseries. plain_lookup.
  - unfold get_observations.
    pose proof (date_segment_no_HTTPError fromtime) as Nf.
    pose proof (date_segment_no_HTTPError totime) as Nt.
    assert (Fail : forall o : outcome DataFrame,
               raises_HTTPError o = false ->
               (List.length (trace (([] : list string), o)) <= 1)%nat
               /\ (forall s : Z,
                     result (([] : list string), o) = Raises (HTTPError s)
                     <-> exists url response,
                           trace (([] : list string), o) = [url]
                           /\ network url = Some response
                           /\ status_code response = s /\ is_error_status s = true)
               /\ (post_processed (GetObservations fromtime totime station components
                                     showinvalid) = false ->
                   forall url response records,
                     trace (([] : list string), o) = [url] ->
                     network url = Some response ->
                     is_error_status (status_code response) = false ->
                     body response = Some (VList (map VDict records)) ->
                     result (([] : list string), o)
                     = Returns {| columns := pd.unique_keys records;
                                  rows := map (pd.record_cells (pd.unique_keys records))
                                              records |})).
    { intros o No. split; [simpl; lia|]. split; [|discriminate].
      intros s. split.
      - intros E. now apply raises_HTTPError_false in E.
      - intros (u & r & E & _). discriminate. }
    destruct (date_segment fromtime) as [f|e|];
      [rewrite io_bind_Returns|now apply Fail..].
    destruct (date_segment totime) as [t|e|];
      [rewrite io_bind_Returns|now apply Fail..].
    destruct (processed_errors network self (observations_path f t station)
                (observations_parameters components showinvalid) "values")
      as [H1 H2].
    split; [exact H1|]. split; [exact H2|discriminate].
Qed.

Lemma public_operations_errors_witness :
  post_processed GetAreas = false
  /\ result (perform (lib := pandas_ns)
               (constant_network (mkResponse 200 (Some (VList (map VDict
                  [[("zone", VStr "Bergen")]])))))
               __init__ GetAreas)
     = Returns {| columns := ["zone"]; rows := [[VStr "Bergen"]] |}.
Proof.
  split; [reflexivity|].
  apply (proj2 (proj2 (public_operations_errors (lib := pandas_ns)
                         (constant_network (mkResponse 200 (Some (VList (map VDict
                            [[("zone", VStr "Bergen")]])))))
                         __init__ GetAreas))
               eq_refl "https://api.nilu.no/lookup/areas?"
               (mkResponse 200 (Some (VList (map VDict [[("zone", VStr "Bergen")]]))))
               [[("zone", VStr "Bergen")]] eq_refl eq_refl eq_refl eq_refl).
Defined.

(* ================================================================= *)
(** * Further properties *)

(** ** Query strings *)

Lemma render_not_empty (k s : string) : k ++ "=" ++ s <> EmptyString.
Proof. destruct k; discriminate. Qed.

Lemma append_not_empty (a b : string) : a <> EmptyString -> a ++ b <> EmptyString.
Proof. destruct a; [congruence|discriminate]. Qed.

Lemma stringify_items_not_empty (ps : kwargs) (x : string) :
  In x (stringify_items ps) -> x <> EmptyString.
Proof.
  rewrite stringify_items_filter. intros H.
  apply in_map_iff in H as ([k v] & <- & _). apply render_not_empty.
Qed.

Lemma join_not_empty (sep x : string) (l : list string) :
  x <> EmptyString -> join sep (x :: l) <> EmptyString.
Proof.
  intros Hx. rewrite join_cons. destruct l; [exact Hx|].
  now apply append_not_empty.
Qed.

Lemma stringify_empty (ps : kwargs) :
  _stringify ps = EmptyString <-> stringify_items ps = [].
Proof.
  unfold _stringify. split.
  - destruct (stringify_items ps) as [|x l] eqn:E; [reflexivity|].
    intros H. exfalso. revert H. apply join_not_empty.
    apply (stringify_items_not_empty ps). rewrite E. now left.
  - intros ->. reflexivity.
Qed.

Lemma join_app (sep : string) (l1 l2 : list string) :
  l1 <> [] -> l2 <> [] ->
  join sep (l1 ++ l2)%list = join sep l1 ++ sep ++ join sep l2.
Proof.
  intros H1 H2. induction l1 as [|x l1 IH]; [congruence|].
  destruct l1 as [|y l1].
  - simpl app. rewrite join_cons. destruct l2; [congruence|reflexivity].
  - change ((x :: y :: l1) ++ l2)%list with (x :: (y :: l1) ++ l2)%list.
    rewrite (join_cons sep x ((y :: l1) ++ l2)%list).
    change ((y :: l1) ++ l2)%list with (y :: l1 ++ l2)%list at 1.
    cbv iota. rewrite IH by discriminate.
    rewrite (join_cons sep x (y :: l1)). cbv iota. now rewrite !append_assoc.
Qed.

(** X1: the query string is empty exactly when no parameter has a value
    (no parameter at all, or [None] for every one of them): an emitted pair
    is never empty, since it holds at least the [=] sign. *)
Theorem stringify_empty_iff_nothing_present (ps : kwargs) :
  _stringify ps = EmptyString <-> existsb present ps = false.
Proof.
  rewrite stringify_empty. symmetry. apply stringify_items_nil.
Qed.

(** X2: query strings compose. The query of two parameter lists put one
    after the other is the two queries joined by [&], without a separator
    when either is empty. *)
Theorem stringify_app (ps qs : kwargs) :
  _stringify (ps ++ qs)%list = amp (_stringify ps) (_stringify qs).
Proof.
  unfold amp.
  destruct (String.eqb_spec (_stringify ps) EmptyString) as [Ep|Np].
  - apply stringify_empty in Ep. unfold _stringify.
    now rewrite stringify_items_app, Ep.
  - destruct (String.eqb_spec (_stringify qs) EmptyString) as [Eq|Nq].
    + apply stringify_empty in Eq. unfold _stringify.
      now rewrite stringify_items_app, Eq, app_nil_r.
    + unfold _stringify in *. rewrite stringify_items_app.
      apply join_app.
      * intros E. apply Np. now rewrite E.
      * intros E. apply Nq. now rewrite E.
Qed.

(** X3: nothing is escaped. A string value that contains [&name=value] is
    sent exactly like an additional parameter [name] with that value. *)
Theorem stringify_does_not_escape (k v k' : string) (v' : pyval) (rest : kwargs) :
  v' <> PNone ->
  _stringify ((k, PStr (v ++ "&" ++ k' ++ "=" ++ str v')) :: rest)
  = _stringify ((k, PStr v) :: (k', v') :: rest).
Proof.
  intros Hv. unfold _stringify. simpl stringify_items.
  destruct (is_None v') eqn:E; [destruct v'; discriminate || congruence|].
  rewrite !join_cons. simpl str.
  destruct (stringify_items rest);
    repeat (rewrite !append_assoc; cbn [append]); reflexivity.
Qed.

Lemma stringify_does_not_escape_witness :
  PBool true <> PNone
  /\ _stringify [("area", PStr "bergen&utd=True")]
     = _stringify [("area", PStr "bergen"); ("utd", PBool true)].
Proof.
  split; [discriminate|].
  apply (stringify_does_not_escape "area" "bergen" "utd" (PBool true) []).
  discriminate.
Defined.

(** ** Requests *)

Lemma io_bind_Raises {A B : Type} (e : exn) (k : A -> IO B) :
  io_bind (io_lift (Raises e)) k = ([], Raises e).
Proof. reflexivity. Qed.

Lemma io_bind_Unmodelled {A B : Type} (k : A -> IO B) :
  io_bind (io_lift (@Unmodelled A)) k = ([], Unmodelled).
Proof. reflexivity. Qed.

Lemma get_url_respond (network : string -> option Response) (self : NILUClient)
  (url : string) (q : kwargs) :
  _get_url network self url q
  = ([request_url self url q], respond (network (request_url self url q))).
Proof.
  rewrite (surjective_pairing (_get_url network self url q)).
  f_equal; [apply get_url_trace|apply get_url_result].
Qed.

Lemma post_process_pair (m : IO DataFrame) (column : string) :
  io_bind m (fun df => io_lift (_flatten_column df column))
  = (trace m, obind (result m) (fun df => _flatten_column df column)).
Proof.
  rewrite (surjective_pairing (io_bind m _)).
  f_equal; [apply post_process_trace|apply post_process_result].
Qed.

(** Every operation, in one equation: its requests, and the answer to the
    request put through its post-processing. *)
Lemma perform_eq {lib : DateLibrary}
  (network : string -> option Response) (self : NILUClient)
  (c : call) :
  perform network self c
  = match requests self c with
    | [url] => ([url], obind (respond (network url)) (post_process c))
    | _ => ([], match c with
                | GetObservations fromtime totime _ _ _ =>
                    obind (date_segment fromtime) (fun _ =>
                    obind (date_segment totime) (fun _ => Unmodelled))
                | _ => Unmodelled
                end)
    end.
Proof.
  destruct c as [|area utd| |component culture|station component timestep
                 |fromtime totime station components showinvalid];
    simpl perform; simpl requests.
  - unfold get_areas. rewrite get_url_respond.
    now destruct (respond _).
  - unfold get_stations. rewrite get_url_respond. now destruct (respond _).
  - unfold get_components. rewrite get_url_respond. now destruct (respond _).
  - unfold get_air_quality_index. now rewrite post_process_pair, get_url_respond.
  - unfold get_timeseries. rewrite get_url_respond. now destruct (respond _).
  - unfold get_observations.
    destruct (date_segment fromtime) as [f|e|]; [|reflexivity..].
    rewrite io_bind_Returns.
    destruct (date_segment totime) as [t|e|]; [|reflexivity..].
    now rewrite io_bind_Returns, post_process_pair, get_url_respond.
Qed.

Lemma perform_trace {lib : DateLibrary}
  (network : string -> option Response) (self : NILUClient)
  (c : call) :
  trace (perform network self c) = requests self c.
Proof.
  rewrite perform_eq.
  destruct (requests self c) as [|url [|url' l]] eqn:E; try reflexivity.
  exfalso.
  destruct c as [| | | | |fromtime totime ? ? ?]; simpl in E; try discriminate.
  destruct (date_segment fromtime); try discriminate.
  destruct (date_segment totime); discriminate.
Qed.

Lemma perform_result {lib : DateLibrary}
  (network : string -> option Response) (self : NILUClient)
  (c : call) (url : string) :
  requests self c = [url] ->
  result (perform network self c) = obind (respond (network url)) (post_process c).
Proof. intros E. now rewrite perform_eq, E. Qed.

(** X4: what an operation requests is decided by its arguments alone.
    Each of the five lookups requests the one URL of its endpoint, with its
    parameters in the declared order, and so does the observations call
    once its two dates have been converted. No answer of the network changes
    what is requested, and none makes an operation ask again. *)
Theorem requests_decided_by_arguments {lib : DateLibrary} (self : NILUClient)
  (c : call) :
  (forall network url,
      requests self c = [url] -> trace (perform network self c) = [url])
  /\ (forall network1 network2,
        trace (perform network1 self c) = trace (perform network2 self c))
  /\ (forall network,
        match c with
        | GetAreas =>
            trace (perform network self c) = [request_url self "lookup/areas" []]
        | GetStations area utd =>
            trace (perform network self c)
            = [request_url self "lookup/stations" [("area", area); ("utd", utd)]]
        | GetComponents =>
            trace (perform network self c)
            = [request_url self "lookup/components" []]
        | GetAirQualityIndex component culture =>
            trace (perform network self c)
            = [request_url self "lookup/aqis"
                 [("component", component); ("culture", culture)]]
        | GetTimeseries station component timestep =>
            trace (perform network self c)
            = [request_url self "lookup/timeseries"
                 [("station", station); ("component", component);
                  ("timestep", timestep)]]
        | GetObservations fromtime totime station components showinvalid =>
            forall f t,
              date_segment fromtime = Returns f ->
              date_segment totime = Returns t ->
              trace (perform network self c)
              = [request_url self (observations_path f t station)
                   [("components", join_components components);
                    ("showinvalid", showinvalid)]]
        end).
Proof.
  split; [|split].
  - intros network url E. now rewrite perform_trace.
  - intros network1 network2. now rewrite !perform_trace.
  - intros network. rewrite perform_trace.
    destruct c as [| | | | |fromtime totime ? ? ?]; try reflexivity.
    intros f t Ef Et. simpl. now rewrite Ef, Et.
Qed.

Lemma requests_decided_by_arguments_witness :
  trace (perform (lib := pandas_ns) (fun _ => None) __init__
           (GetStations (PStr "bergen") PNone))
  = ["https://api.nilu.no/lookup/stations?area=bergen"].
Proof.
  apply (proj1 (requests_decided_by_arguments (lib := pandas_ns) __init__
                  (GetStations (PStr "bergen") PNone))
               (fun _ => None)).
  reflexivity.
Defined.

(** X5: the client never asks another host. Every URL an operation
    requests is the base URL of the client, a path, a question mark and a
    query string; for a client made by [__init__] it starts with
    [https://api.nilu.no/]. *)
Theorem requests_stay_under_base_url {lib : DateLibrary}
  (network : string -> option Response) (self : NILUClient) (c : call)
  (url : string) :
  In url (trace (perform network self c)) ->
  exists path q, url = base_url self ++ path ++ "?" ++ _stringify q.
Proof.
  rewrite perform_trace.
  destruct c as [|area utd| |component culture|station component timestep
                 |fromtime totime station components showinvalid];
    cbn [requests].
  6: destruct (date_segment fromtime) as [f|e|];
       [destruct (date_segment totime) as [t|e|]|..].
  all: cbn [In]; intros H; try (now destruct H).
  all: destruct H as [<-|H]; [|destruct H].
  all: unfold request_url; eexists _, _; reflexivity.
Qed.

Lemma requests_stay_under_base_url_witness :
  exists path q,
    "https://api.nilu.no/lookup/stations?area=bergen"
    = base_url __init__ ++ path ++ "?" ++ _stringify q.
Proof.
  apply (requests_stay_under_base_url (lib := pandas_ns) (fun _ => None) __init__
           (GetStations (PStr "bergen") PNone)).
  now left.
Defined.

(** X6: failures of the request pass through every operation as they
    are. When the transport gives no response the operation raises
    [ConnectionError]; when the response has a status that is no error but
    a body that is not JSON, it raises [JSONDecodeError]; in neither case is
    a table built or flattened. *)
Theorem request_failures_pass_through {lib : DateLibrary}
  (network : string -> option Response) (self : NILUClient) (c : call)
  (url : string) :
  requests self c = [url] ->
  (network url = None ->
   perform network self c = ([url], Raises ConnectionError))
  /\ (forall response,
        network url = Some response ->
        is_error_status (status_code response) = false ->
        body response = None ->
        perform network self c = ([url], Raises JSONDecodeError)).
Proof.
  intros E. rewrite perform_eq, E. split.
  - intros ->. reflexivity.
  - intros response -> Es Eb. unfold respond, raise_for_status.
    fold (is_error_status (status_code response)). rewrite Es. simpl.
    unfold response_json. now rewrite Eb.
Qed.

Lemma request_failures_pass_through_witness :
  requests (lib := pandas_ns) __init__ (GetAirQualityIndex PNone PNone)
  = ["https://api.nilu.no/lookup/aqis?"]
  /\ perform (lib := pandas_ns) (fun _ => None) __init__
       (GetAirQualityIndex PNone PNone)
     = (["https://api.nilu.no/lookup/aqis?"], Raises ConnectionError).
Proof.
  split; [reflexivity|].
  apply (proj1 (request_failures_pass_through (lib := pandas_ns)
                  (fun _ => None) __init__
                  (GetAirQualityIndex PNone PNone)
                  "https://api.nilu.no/lookup/aqis?" eq_refl)).
  reflexivity.
Defined.

(** X7: a status that [raise_for_status] accepts plays no further part.
    Two responses with the same body and any two statuses outside 400-599
    (200, 204, 304, ...) give the same outcome of the operation. *)
Theorem accepted_status_is_ignored {lib : DateLibrary}
  (network1 network2 : string -> option Response)
  (self : NILUClient) (c : call) (url : string) (r1 r2 : Response) :
  requests self c = [url] ->
  network1 url = Some r1 -> network2 url = Some r2 ->
  is_error_status (status_code r1) = false ->
  is_error_status (status_code r2) = false ->
  body r1 = body r2 ->
  perform network1 self c = perform network2 self c.
Proof.
  intros E E1 E2 S1 S2 Eb. rewrite !perform_eq, E, E1, E2.
  unfold respond, raise_for_status.
  fold (is_error_status (status_code r1)). fold (is_error_status (status_code r2)).
  rewrite S1, S2. simpl. unfold response_json. now rewrite Eb.
Qed.

Lemma accepted_status_is_ignored_witness :
  perform (lib := pandas_ns)
    (constant_network (mkResponse 200 (Some (VList [])))) __init__ GetAreas
  = perform (lib := pandas_ns)
      (constant_network (mkResponse 304 (Some (VList [])))) __init__ GetAreas.
Proof.
  apply (accepted_status_is_ignored (lib := pandas_ns)
           (constant_network (mkResponse 200 (Some (VList []))))
           (constant_network (mkResponse 304 (Some (VList []))))
           __init__ GetAreas "https://api.nilu.no/lookup/areas?"
           (mkResponse 200 (Some (VList []))) (mkResponse 304 (Some (VList []))));
    reflexivity.
Defined.

(** X8: the empty result set. Answered with an empty JSON array, a plain
    lookup returns the table with no rows and no columns, and an operation
    that flattens a column raises [KeyError], whatever its arguments: the
    empty table has no such column. *)
Theorem empty_array_outcome {lib : DateLibrary}
  (network : string -> option Response) (self : NILUClient) (c : call)
  (url : string) (response : Response) :
  requests self c = [url] ->
  network url = Some response ->
  is_error_status (status_code response) = false ->
  body response = Some (VList []) ->
  perform network self c
  = ([url], if post_processed c then Raises KeyError else Returns empty_table).
Proof.
  intros E En Es Eb. rewrite perform_eq, E, En.
  unfold respond, raise_for_status.
  fold (is_error_status (status_code response)). rewrite Es. simpl.
  unfold response_json. rewrite Eb. simpl.
  now destruct c.
Qed.

Lemma empty_array_outcome_witness :
  perform (lib := pandas_ns)
          (constant_network (mkResponse 200 (Some (VList [])))) __init__
          (GetObservations (DStr "2021-05-01") (DStr "2021-05-02")
             default_station None PNone)
  = (["https://api.nilu.no/obs/historical/2021-05-01/2021-05-02/all?"],
     Raises KeyError).
Proof.
  apply (empty_array_outcome (lib := pandas_ns)
           (constant_network (mkResponse 200 (Some (VList [])))) __init__
           (GetObservations (DStr "2021-05-01") (DStr "2021-05-02")
              default_station None PNone)
           "https://api.nilu.no/obs/historical/2021-05-01/2021-05-02/all?"
           (mkResponse 200 (Some (VList []))));
    reflexivity.
Defined.

(** ** The script *)

Lemma trace_io_bind {A B : Type} (m : IO A) (k : A -> IO B) :
  trace (io_bind m k)
  = (trace m ++ match result m with
                | Returns a => trace (k a)
                | _ => []
                end)%list.
Proof.
  destruct m as [t [a|e|]]; simpl.
  - unfold trace. now destruct (k a).
  - unfold trace. simpl. now rewrite app_nil_r.
  - unfold trace. simpl. now rewrite app_nil_r.
Qed.

Lemma result_io_bind {A B : Type} (m : IO A) (k : A -> IO B) :
  result (io_bind m k)
  = match result m with
    | Returns a => result (k a)
    | Raises e => Raises e
    | Unmodelled => Unmodelled
    end.
Proof.
  destruct m as [t [a|e|]]; simpl; try reflexivity.
  unfold result. now destruct (k a).
Qed.

Lemma runs_done : runs [] (io_lift (Returns tt)).
Proof. split; [now exists []|reflexivity]. Qed.

Lemma runs_step {A B : Type} (u : string) (us : list string) (m : IO A)
  (k : A -> IO B) :
  trace m = [u] -> (forall a, runs us (k a)) -> runs (u :: us) (io_bind m k).
Proof.
  intros Hm Hk. split.
  - rewrite trace_io_bind, Hm. destruct (result m) as [a|e|].
    + destruct (Hk a) as [(rest & ->) _]. now exists rest.
    + now exists us.
    + now exists us.
  - intros b. rewrite result_io_bind, trace_io_bind, Hm.
    destruct (result m) as [a|e|]; try discriminate.
    intros Hb. destruct (Hk a) as [_ H]. now rewrite (H b Hb).
Qed.

(** X9: the script under [__main__] requests its six URLs in the order of
    its six calls and stops at the first exception: on every network what
    it has requested is a prefix of the six, and all six when it ends
    without an exception. *)
Theorem main_requests_in_order {lib : DateLibrary}
  (network : string -> option Response) :
  runs main_requests (__main__ network).
Proof.
  unfold __main__, main_requests.
  apply runs_step; [apply (perform_trace network __init__ GetAreas)|intros _].
  apply runs_step;
    [apply (perform_trace network __init__ (GetStations (PStr "bergen") PNone))
    |intros _].
  apply runs_step; [apply (perform_trace network __init__ GetComponents)|intros _].
  apply runs_step;
    [apply (perform_trace network __init__
              (GetTimeseries (PStr "Danmarks plass") PNone PNone))|intros _].
  apply runs_step;
    [apply (perform_trace network __init__ (GetAirQualityIndex PNone PNone))
    |intros _].
  apply runs_step;
    [apply (perform_trace network __init__
              (GetObservations (DStr "2021-05-01") (DStr "2021-05-02")
                 (PStr "Danmarks plass") (Some ["NOx"]) PNone))|intros _].
  apply runs_done.
Qed.

(** ** Dates *)

Local Open Scope Z_scope.

Lemma date_segment_Raises {lib : DateLibrary} (x : datelike) (e : exn) :
  date_segment x = Raises e -> e = ValueError \/ e = OutOfBoundsDatetime.
Proof.
  assert (C : forall ts, checked ts = Raises e -> e = OutOfBoundsDatetime).
  { intros ts. unfold checked. destruct (accepts ts); [discriminate|].
    intros H. now injection H as <-. }
  unfold date_segment.
  destruct (to_datetime x) as [ts|e'|] eqn:E; simpl; try discriminate.
  intros H. injection H as ->.
  destruct x as [s|y m d|y m d hh mi ss ns]; simpl in E.
  - destruct (parse_iso s); [right; now apply C in E|].
    destruct (free_form s) as [ts| |]; try discriminate.
    + destruct (is_valid ts); [right; now apply C in E|discriminate].
    + left. now injection E as <-.
  - destruct (valid_date y m d); [right; now apply C in E|discriminate].
  - destruct (valid_date y m d && valid_time hh mi ss ns)%bool;
      [right; now apply C in E|discriminate].
Qed.

(** X10: a start or an end that pandas rejects ends the observations call
    before any request is made, and the exception of the conversion is the
    outcome of the call: the [ValueError] of the parser, or
    [OutOfBoundsDatetime] from a release that cannot hold the date. The
    start is converted first, so its exception is the one reported when the
    end is rejected too. Which dates are rejected is up to the release:
    every release accepts the dates and times of the years 1678 to 2261,
    and a release that holds nothing outside the 64-bit nanosecond range
    rejects every year before 1677 and after 2262. *)
Theorem rejected_date_ends_the_call {lib : DateLibrary}
  (network : string -> option Response) (self : NILUClient)
  (fromtime totime : datelike) (station : pyval)
  (components : option (list string)) (showinvalid : pyval) :
  (forall e, date_segment fromtime = Raises e ->
     get_observations network self fromtime totime station components showinvalid
     = ([], Raises e)
     /\ (e = ValueError \/ e = OutOfBoundsDatetime))
  /\ (forall f e, date_segment fromtime = Returns f ->
        date_segment totime = Raises e ->
        get_observations network self fromtime totime station components showinvalid
        = ([], Raises e)
        /\ (e = ValueError \/ e = OutOfBoundsDatetime))
  /\ (forall y m d hh mi ss ns : Z,
        valid_date y m d = true -> valid_time hh mi ss ns = true ->
        1678 <= y <= 2261 ->
        date_segment (DDate y m d) = Returns (iso_date y m d)
        /\ date_segment (DTimestamp y m d hh mi ss ns) = Returns (iso_date y m d))
  /\ (forall y m d hh mi ss ns : Z,
        valid_date y m d = true -> valid_time hh mi ss ns = true ->
        y < 1677 \/ 2262 < y ->
        holds (mkTimestamp y m d hh mi ss ns) = false ->
        date_segment (DTimestamp y m d hh mi ss ns) = Raises OutOfBoundsDatetime).
Proof.
  split; [|split; [|split]].
  - intros e E. split; [|now apply (date_segment_Raises fromtime)].
    unfold get_observations. now rewrite E.
  - intros f e Ef Et. split; [|now apply (date_segment_Raises totime)].
    unfold get_observations. now rewrite Ef, io_bind_Returns, Et.
  - intros y m d hh mi ss ns Hd Ht Hy.
    assert (T0 : valid_time 0 0 0 0 = true) by reflexivity.
    split.
    + apply (date_segment_Returns _ (mkTimestamp y m d 0 0 0 0)); [|simpl; lia].
      apply to_datetime_fields; try assumption; try reflexivity.
      now apply in_bounds_accepts, in_bounds_inner_years.
    + apply (date_segment_Returns _ (mkTimestamp y m d hh mi ss ns)); [|simpl; lia].
      apply to_datetime_fields; try assumption; try reflexivity.
      now apply in_bounds_accepts, in_bounds_inner_years.
  - intros y m d hh mi ss ns Hd Ht Hy Hh.
    unfold date_segment, to_datetime. rewrite Hd, Ht. simpl andb. cbv iota.
    unfold checked, accepts. rewrite Hh, orb_false_r.
    destruct (in_bounds (mkTimestamp y m d hh mi ss ns)) eqn:B; [|reflexivity].
    pose proof (in_bounds_year (mkTimestamp y m d hh mi ss ns) Hd Ht B) as Y.
    simpl in Y. lia.
Qed.

Lemma rejected_date_ends_the_call_witness :
  date_segment (lib := pandas_ns) (DTimestamp 1500 1 1 12 0 0 0)
  = Raises OutOfBoundsDatetime
  /\ get_observations (lib := pandas_ns) (fun _ => None) __init__
       (DTimestamp 1500 1 1 12 0 0 0) (DStr "2021-05-02") default_station None PNone
     = ([], Raises OutOfBoundsDatetime).
Proof.
  split; [reflexivity|].
  apply (proj1 (rejected_date_ends_the_call (lib := pandas_ns) (fun _ => None)
                  __init__ (DTimestamp 1500 1 1 12 0 0 0) (DStr "2021-05-02")
                  default_station None PNone)
               OutOfBoundsDatetime eq_refl).
Defined.

(** X11: formatting a date and reading it back. The segment of a valid
    calendar date names that date and no other: two dates with the same
    segment are the same date, and the segment read as a string gives the
    timestamp of that day at midnight. So a segment of a year from 1000 on
    that the call has produced can be passed to it again and comes out
    unchanged, provided pandas accepts midnight of that day. *)
Theorem date_segment_round_trip {lib : DateLibrary} :
  (forall y m d y' m' d' : Z,
      valid_date y m d = true -> valid_date y' m' d' = true ->
      iso_date y m d = iso_date y' m' d' -> y = y' /\ m = m' /\ d = d')
  /\ (forall (x : datelike) (ts : Timestamp) (s : string),
        to_datetime x = Returns ts ->
        date_segment x = Returns s ->
        1000 <= year ts ->
        accepts (mkTimestamp (year ts) (month ts) (day ts) 0 0 0 0) = true ->
        to_datetime (DStr s)
        = Returns (mkTimestamp (year ts) (month ts) (day ts) 0 0 0 0)
        /\ date_segment (DStr s) = Returns s).
Proof.
  split.
  - intros y m d y' m' d' V V' E.
    pose proof (parse_iso_date y m d V) as P.
    rewrite E, (parse_iso_date y' m' d' V') in P.
    injection P as -> -> ->. auto.
  - intros x ts s Ex Es Hy Hb.
    rewrite (date_segment_Returns x ts Ex Hy) in Es. injection Es as <-.
    apply to_datetime_Returns in Ex as (Hd & _).
    assert (E : to_datetime (DStr (iso_date (year ts) (month ts) (day ts)))
                = Returns (mkTimestamp (year ts) (month ts) (day ts) 0 0 0 0)).
    { unfold to_datetime. rewrite (parse_iso_date _ _ _ Hd).
      now apply checked_accepts. }
    split; [exact E|].
    now rewrite (date_segment_Returns _ _ E Hy).
Qed.

Lemma date_segment_round_trip_witness :
  valid_date 2021 5 1 = true
  /\ date_segment (lib := pandas_ns) (DStr "2021-05-01") = Returns "2021-05-01".
Proof.
  split; [reflexivity|].
  apply (proj2 (proj2 (date_segment_round_trip (lib := pandas_ns))
                  (DTimestamp 2021 5 1 13 45 10 0)
                  (mkTimestamp 2021 5 1 13 45 10 0) "2021-05-01"
                  eq_refl eq_refl (Zle_bool_imp_le 1000 2021 eq_refl) eq_refl)).
Defined.

Local Close Scope Z_scope.

(** ** The exceptions of the flattener *)

Lemma traverse_Raises_inv {A B : Type} (f : A -> outcome B) (l : list A) (e : exn) :
  traverse f l = Raises e -> exists x, In x l /\ f x = Raises e.
Proof.
  induction l as [|x l IH]; simpl; [discriminate|].
  destruct (f x) as [y|e'|] eqn:E; simpl; try discriminate.
  - destruct (traverse f l) as [ys|e'|]; simpl; try discriminate.
    intros H. injection H as ->. destruct IH as (x0 & Hin & Hx0); [reflexivity|].
    exists x0. auto.
  - intros H. injection H as ->. exists x. auto.
Qed.

Lemma traverse_Unmodelled_inv {A B : Type} (f : A -> outcome B) (l : list A) :
  traverse f l = Unmodelled -> exists x, In x l /\ f x = Unmodelled.
Proof.
  induction l as [|x l IH]; simpl; [discriminate|].
  destruct (f x) as [y|e'|] eqn:E; simpl; try discriminate.
  - destruct (traverse f l) as [ys|e'|]; simpl; try discriminate.
    intros _. destruct IH as (x0 & Hin & Hx0); [reflexivity|].
    exists x0. auto.
  - intros _. exists x. auto.
Qed.

Lemma traverse_Returns_inv {A B : Type} (f : A -> outcome B) (l : list A)
  (ys : list B) :
  traverse f l = Returns ys -> Forall2 (fun x y => f x = Returns y) l ys.
Proof.
  revert ys. induction l as [|x l IH]; simpl; intros ys H.
  - injection H as <-. constructor.
  - apply obind_Returns in H as (y & Ey & H).
    apply obind_Returns in H as (ys' & Eys & H). injection H as <-.
    constructor; auto.
Qed.

Lemma explode_row_outcome (labels : list string) (column : string)
  (row : list value) :
  pd.explode_row labels column row = Raises KeyError
  \/ exists elements,
       pd.explode_row labels column row
       = Returns (map (fun e => set_cell labels column e row) elements).
Proof.
  unfold pd.explode_row.
  assert (C : forall v, pd.explode_cell v = Raises KeyError
                        \/ exists l, pd.explode_cell v = Returns l).
  { intros [| | | | |[|x l]|[|p d]]; simpl; eauto. }
  destruct (C (cell labels column row)) as [->|(l & ->)]; [now left|].
  right. now exists l.
Qed.

(** With unique labels and the column present, [explode] either returns or
    raises the [KeyError] that the [try] statement swallows. *)
Lemma after_try_present (df : DataFrame) (column : string) :
  is_unique (columns df) = true -> has_column df column = true ->
  exists t, after_try df column = Returns t /\ columns t = columns df.
Proof.
  intros Hu Hc. unfold after_try; simpl. unfold pd.explode. rewrite Hu, Hc. simpl.
  destruct (traverse (pd.explode_row (columns df) column) (rows df))
    as [groups|e|] eqn:T; simpl.
  - eexists. split; reflexivity.
  - apply traverse_Raises_inv in T as (row & _ & E).
    destruct (explode_row_outcome (columns df) column row) as [K|(l & R)];
      [|congruence].
    assert (e = KeyError) by congruence. subst e. now exists df.
  - apply traverse_Unmodelled_inv in T as (row & _ & E).
    destruct (explode_row_outcome (columns df) column row) as [K|(l & R)];
      congruence.
Qed.

Lemma from_records_Raises (data : list value) (e : exn) :
  pd.from_records data = Raises e -> e = AttributeError \/ e = TypeError.
Proof.
  destruct data as [|v data]; [discriminate|].
  destruct v; simpl; try discriminate; try (intros H; injection H as <-; auto).
  destruct (traverse pd.as_record data) as [ds|e'|] eqn:T; simpl; try discriminate.
  intros H. injection H as ->.
  apply traverse_Raises_inv in T as (x & _ & E).
  destruct x; simpl in E; try discriminate; injection E as <-; auto.
Qed.

(** With unique labels and the column present only the construction of
    the records can fail. *)
Lemma flatten_present (df : DataFrame) (column : string) :
  is_unique (columns df) = true -> has_column df column = true ->
  exists t,
    after_try df column = Returns t /\ columns t = columns df
    /\ _flatten_column df column
       = obind (pd.from_records (map (cell (columns df) column) (rows t)))
               (fun records =>
                  Returns (pd.concat
                             {| columns := drop_label (columns df) column;
                                rows := map (drop_cell (columns df) column) (rows t) |}
                             records)).
Proof.
  intros Hu Hc. destruct (after_try_present df column Hu Hc) as (t & Ht & Hcols).
  exists t. split; [exact Ht|]. split; [exact Hcols|].
  rewrite flatten_unfold, Ht. simpl.
  unfold pd.drop, pd.getitem, has_column. rewrite Hcols.
  unfold has_column in Hc. rewrite Hc, Hu. reflexivity.
Qed.

Lemma flatten_not_unique (df : DataFrame) (column : string) :
  is_unique (columns df) = false -> _flatten_column df column = Raises ValueError.
Proof.
  intros Hu. rewrite flatten_unfold. unfold after_try; simpl. unfold pd.explode.
  now rewrite Hu.
Qed.

Ltac settle_exceptions :=
  repeat split; intros;
  repeat match goal with H : _ /\ _ |- _ => destruct H end;
  try discriminate; try congruence;
  try (match goal with H : Raises _ = Raises _ |- _ => injection H as <- end; tauto).

(** X12: which exception says what. The flattener raises [ValueError]
    exactly when the column labels of the table are not unique, and
    [KeyError] exactly when they are unique and the column is absent: a
    [KeyError] of [explode] on the cells of the column never reaches the
    caller.
    With the column present it can only fail while building the records,
    with [AttributeError] or [TypeError]. *)
Theorem flatten_exceptions (df : DataFrame) (column : string) :
  (_flatten_column df column = Raises ValueError
   <-> is_unique (columns df) = false)
  /\ (_flatten_column df column = Raises KeyError
      <-> is_unique (columns df) = true /\ has_column df column = false)
  /\ (forall e, _flatten_column df column = Raises e ->
        e = ValueError \/ e = KeyError \/ e = AttributeError \/ e = TypeError).
Proof.
  destruct (is_unique (columns df)) eqn:Hu.
  - destruct (has_column df column) eqn:Hc.
    + destruct (flatten_present df column Hu Hc) as (t & _ & _ & ->).
      destruct (pd.from_records _) as [records|e'|] eqn:R; simpl.
      * settle_exceptions.
      * apply from_records_Raises in R. destruct R; subst e'; settle_exceptions.
      * settle_exceptions.
    + assert (E : _flatten_column df column = Raises KeyError).
      { rewrite flatten_unfold. unfold after_try; simpl. unfold pd.explode.
        rewrite Hu, Hc. simpl. unfold pd.drop. now rewrite Hc. }
      rewrite E. settle_exceptions.
  - assert (E : _flatten_column df column = Raises ValueError).
    { rewrite flatten_unfold. unfold after_try; simpl. unfold pd.explode.
      now rewrite Hu. }
    rewrite E. settle_exceptions.
Qed.

Lemma cell_set_cell_same (labels : list string) (column : string)
  (row : list value) :
  cell labels column (set_cell labels column (cell labels column row) row)
  = cell labels column row.
Proof.
  revert row. induction labels as [|k labels IH]; intros row; simpl.
  - now destruct row.
  - destruct row as [|v row]; [reflexivity|]. simpl.
    destruct (String.eqb k column) eqn:E; simpl; rewrite ?E; [reflexivity|apply IH].
Qed.

(** X13: a column of plain scalars is not passed through. If the table has
    at least one row and the cells of the column are numbers, booleans,
    [None] or missing, [explode] keeps every row and the construction of the
    records raises [TypeError]. *)
Theorem flatten_scalar_column_raises (df : DataFrame) (column : string) :
  is_unique (columns df) = true -> has_column df column = true ->
  rows df <> [] ->
  forallb is_plain_scalar (map (cell (columns df) column) (rows df)) = true ->
  pd.explode df column
  = Returns {| columns := columns df;
               rows := map (fun row => set_cell (columns df) column
                                         (cell (columns df) column row) row)
                           (rows df) |}
  /\ _flatten_column df column = Raises TypeError.
Proof.
  intros Hu Hc Hne Hs.
  assert (Hex : pd.explode df column
                = Returns {| columns := columns df;
                             rows := map (fun row => set_cell (columns df) column
                                                       (cell (columns df) column row) row)
                                         (rows df) |}).
  { unfold pd.explode. rewrite Hu, Hc. simpl.
    rewrite (traverse_Returns _
               (fun row => [set_cell (columns df) column
                              (cell (columns df) column row) row])).
    - simpl. f_equal. f_equal. clear. induction (rows df); simpl; congruence.
    - intros row Hrow. unfold pd.explode_row.
      rewrite forallb_forall in Hs.
      specialize (Hs _ (in_map _ _ _ Hrow)).
      now destruct (cell (columns df) column row). }
  split; [exact Hex|].
  destruct (flatten_present df column Hu Hc) as (t & Ht & _ & ->).
  unfold after_try in Ht; simpl in Ht. rewrite Hex in Ht. injection Ht as <-.
  simpl rows. destruct (rows df) as [|row rs]; [congruence|].
  simpl map. rewrite cell_set_cell_same.
  simpl in Hs. apply andb_true_iff in Hs as [Hs _].
  now destruct (cell (columns df) column row).
Qed.

Lemma flatten_scalar_column_raises_witness :
  rows {| columns := ["component"; "aqis"]; rows := [[VStr "NO2"; VNum 3]] |} <> []
  /\ _flatten_column
       {| columns := ["component"; "aqis"]; rows := [[VStr "NO2"; VNum 3]] |} "aqis"
     = Raises TypeError.
Proof.
  split; [discriminate|].
  apply (flatten_scalar_column_raises
           {| columns := ["component"; "aqis"];
              rows := [[VStr "NO2"; VNum 3]] |} "aqis");
    [reflexivity|reflexivity|discriminate|reflexivity].
Defined.

Lemma flatten_exceptions_witness :
  _flatten_column {| columns := ["aqis"]; rows := [[VList []]] |} "aqis"
  = Raises TypeError
  /\ (TypeError = ValueError \/ TypeError = KeyError
      \/ TypeError = AttributeError \/ TypeError = TypeError).
Proof.
  split; [reflexivity|].
  apply (proj2 (proj2 (flatten_exceptions
                         {| columns := ["aqis"]; rows := [[VList []]] |} "aqis"))
               TypeError).
  reflexivity.
Defined.

(** ** The shape of tables *)

Lemma set_cell_length (labels : list string) (column : string) (v : value)
  (row : list value) :
  List.length (set_cell labels column v row) = List.length row.
Proof.
  revert row. induction labels as [|k labels IH]; intros row; simpl.
  - reflexivity.
  - destruct row as [|x row]; [reflexivity|]. simpl. now rewrite IH.
Qed.

Lemma drop_cell_length (labels : list string) (column : string) (row : list value) :
  List.length row = List.length labels ->
  List.length (drop_cell labels column row) = List.length (drop_label labels column).
Proof.
  revert row. induction labels as [|k labels IH]; intros row; simpl.
  - reflexivity.
  - destruct row as [|x row]; [discriminate|]. simpl. intros H.
    injection H as H. destruct (String.eqb k column); simpl; now rewrite IH.
Qed.

Lemma explode_rows (df t : DataFrame) (column : string) (r : list value) :
  pd.explode df column = Returns t -> In r (rows t) ->
  exists row v, In row (rows df) /\ r = set_cell (columns df) column v row.
Proof.
  unfold pd.explode.
  destruct (is_unique (columns df)); simpl; [|discriminate].
  destruct (has_column df column); simpl; [|discriminate].
  intros E. apply obind_Returns in E as (groups & T & E). injection E as <-.
  simpl. apply traverse_Returns_inv in T.
  induction T as [|row group rs groups Hrow _ IH]; simpl; [intros []|].
  rewrite in_app_iff. intros [Hr|Hr].
  - destruct (explode_row_outcome (columns df) column row) as [K|(l & R)];
      [congruence|].
    rewrite R in Hrow. injection Hrow as <-.
    apply in_map_iff in Hr as (v & <- & _). exists row, v. auto.
  - destruct (IH Hr) as (row' & v & Hin & ->). exists row', v. auto.
Qed.

Lemma after_try_rectangular (df t : DataFrame) (column : string) :
  rectangular df -> after_try df column = Returns t -> rectangular t.
Proof.
  intros Hdf Ht. pose proof (after_try_Returns _ _ _ Ht) as [_ Hcols].
  unfold after_try in Ht; simpl in Ht.
  destruct (pd.explode df column) as [t'|e|] eqn:E; try discriminate.
  - injection Ht as ->. unfold rectangular. rewrite Hcols.
    apply Forall_forall. intros r Hr.
    destruct (explode_rows _ _ _ _ E Hr) as (row & v & Hin & ->).
    rewrite set_cell_length. unfold rectangular in Hdf.
    rewrite Forall_forall in Hdf. now apply Hdf.
  - destruct e; try discriminate. now injection Ht as <-.
Qed.

Lemma record_cells_length (keys : list string) (d : list (string * value)) :
  List.length (pd.record_cells keys d) = List.length keys.
Proof. unfold pd.record_cells. apply length_map. Qed.

(** X14: the flattener keeps tables rectangular. If every row of the input
    has one cell per column and the flattener returns, every row of the
    result has one cell per column of the result. *)
Theorem flatten_keeps_rectangular (df out : DataFrame) (column : string) :
  rectangular df -> _flatten_column df column = Returns out -> rectangular out.
Proof.
  intros Hdf H. apply flatten_Returns in H as (t & Ht & _ & _ & ->).
  pose proof (after_try_rectangular df t column Hdf Ht) as Hrt.
  unfold rectangular, merged in *. simpl.
  apply Forall_forall. intros r Hr.
  apply in_map_iff in Hr as (row & <- & Hrow).
  rewrite Forall_forall in Hrt. specialize (Hrt row Hrow).
  unfold merge_row. rewrite !length_app, record_cells_length.
  now rewrite drop_cell_length.
Qed.

Lemma flatten_keeps_rectangular_witness :
  rectangular aqis_table
  /\ rectangular {| columns := ["component"; "value"];
                    rows := [[VStr "NO2"; VNum 1]; [VStr "NO2"; VNum 2]] |}.
Proof.
  assert (R : rectangular aqis_table) by (repeat constructor).
  split; [exact R|].
  apply (flatten_keeps_rectangular aqis_table _ "aqis" R). reflexivity.
Defined.

(** *** Unique labels *)

Lemma is_unique_app (a b : list string) :
  is_unique (a ++ b)%list = true
  <-> is_unique a = true /\ is_unique b = true
      /\ forall k, In k a -> ~ In k b.
Proof.
  induction a as [|x a IH]; simpl.
  - split; [intros H; repeat split; auto|tauto].
  - rewrite !andb_true_iff, !negb_true_iff, IH, existsb_app, orb_false_iff.
    split.
    + intros ((Ha & Hb) & Ua & Ub & D). repeat split; auto.
      intros k [<-|Hk]; [|now apply D].
      intros Hin. apply existsb_eqb_In in Hin. congruence.
    + intros ((Ha & Ua) & Ub & D).
      assert (Hb : existsb (String.eqb x) b = false).
      { destruct (existsb (String.eqb x) b) eqn:E; [|reflexivity].
        apply existsb_eqb_In in E. now destruct (D x (or_introl eq_refl)). }
      assert (D' : forall k, In k a -> ~ In k b) by (intros k Hk; apply D; now right).
      tauto.
Qed.

Lemma drop_label_unique (labels : list string) (column : string) :
  is_unique labels = true -> is_unique (drop_label labels column) = true.
Proof.
  unfold drop_label. induction labels as [|k labels IH]; simpl; [reflexivity|].
  rewrite andb_true_iff, negb_true_iff. intros [Hk Hu].
  destruct (negb (String.eqb k column)); simpl; [|now apply IH].
  rewrite andb_true_iff, negb_true_iff. split; [|now apply IH].
  destruct (existsb (String.eqb k) (filter _ labels)) eqn:E; [|reflexivity].
  apply existsb_eqb_In in E. apply filter_In in E as [E _].
  apply existsb_eqb_In in E. congruence.
Qed.

Lemma add_keys_unique (seen keys : list string) :
  is_unique seen = true -> is_unique (pd.add_keys seen keys) = true.
Proof.
  revert seen. induction keys as [|k keys IH]; intros seen Hs; simpl; [exact Hs|].
  destruct (existsb (String.eqb k) seen) eqn:E; [now apply IH|].
  apply IH. apply is_unique_app. repeat split; [exact Hs|].
  intros x Hx [<-|[]]. apply existsb_eqb_In in Hx. congruence.
Qed.

Lemma unique_keys_unique (records : list (list (string * value))) :
  is_unique (pd.unique_keys records) = true.
Proof.
  unfold pd.unique_keys.
  assert (G : forall seen, is_unique seen = true ->
                is_unique (fold_left (fun seen d => pd.add_keys seen (map fst d))
                             records seen) = true).
  { induction records as [|d records IH]; intros seen Hs; simpl; [exact Hs|].
    apply IH. now apply add_keys_unique. }
  now apply G.
Qed.

(** X15: the flattener can hand back a table that breaks what it asks of
    its own input. For a table with unique labels whose nested column holds
    only non-empty lists of objects, the labels of the result are unique
    exactly when no key of a nested object is also the label of another
    column; a key that is comes twice, and flattening such a result again,
    whatever the column, raises [ValueError]. *)
Theorem flatten_unique_labels (df : DataFrame) (column : string) :
  flattenable df column = true ->
  _flatten_column df column = Returns (flattened df column)
  /\ (is_unique (columns (flattened df column)) = true
      <-> forall k, In k (nested_keys df column) ->
                    ~ In k (drop_label (columns df) column))
  /\ (is_unique (columns (flattened df column)) = false ->
      forall column',
        _flatten_column (flattened df column) column' = Raises ValueError).
Proof.
  intros Hf. split; [now apply flattenable_Returns|]. split.
  - unfold flattenable in Hf. apply andb_true_iff in Hf as [Hf _].
    apply andb_true_iff in Hf as [Hu _].
    simpl columns. rewrite is_unique_app. split.
    + intros (_ & _ & D) k Hk Hin. exact (D k Hin Hk).
    + intros D. split; [now apply drop_label_unique|].
      split; [apply unique_keys_unique|].
      intros k Hin Hk. exact (D k Hk Hin).
  - intros Hn column'. now apply flatten_not_unique.
Qed.

Lemma flatten_unique_labels_witness :
  flattenable colliding_table "aqis" = true
  /\ _flatten_column colliding_table "aqis"
     = Returns {| columns := ["component"; "component"];
                  rows := [[VStr "NO2"; VStr "NOx"]] |}
  /\ forall column',
       _flatten_column {| columns := ["component"; "component"];
                          rows := [[VStr "NO2"; VStr "NOx"]] |} column'
       = Raises ValueError.
Proof.
  destruct (flatten_unique_labels colliding_table "aqis" eq_refl) as (E & _ & H).
  split; [reflexivity|]. split; [exact E|].
  apply H. reflexivity.
Defined.

(** ** The table of a response *)

Lemma dict_get_absent (k : string) (d : list (string * value)) :
  ~ In k (map fst d) -> pd.dict_get k d = NaN.
Proof.
  induction d as [|[k' v] d IH]; simpl; [reflexivity|].
  intros H. destruct (String.eqb_spec k' k) as [->|N]; [tauto|]. apply IH. tauto.
Qed.

Lemma cell_record_cells (keys : list string) (k : string) (d : list (string * value)) :
  cell keys k (pd.record_cells keys d)
  = if existsb (String.eqb k) keys then pd.dict_get k d else NaN.
Proof.
  induction keys as [|k' keys IH]; simpl; [reflexivity|].
  rewrite (String.eqb_sym k k').
  destruct (String.eqb_spec k' k) as [->|N]; simpl; [reflexivity|exact IH].
Qed.

Lemma records_table_cell (records : list (list (string * value))) (k : string)
  (d : list (string * value)) :
  In d records ->
  cell (columns (records_table records)) k
       (pd.record_cells (columns (records_table records)) d)
  = pd.dict_get k d.
Proof.
  intros Hd. rewrite cell_record_cells. simpl.
  destruct (existsb (String.eqb k) (pd.unique_keys records)) eqn:E; [reflexivity|].
  symmetry. apply dict_get_absent. intros Hk.
  assert (In k (pd.unique_keys records)) by (apply unique_keys_In; eauto).
  apply existsb_eqb_In in H. congruence.
Qed.




(** ** From the response to the flattened table *)

Lemma dict_get_present (k : string) (d : list (string * value)) :
  pd.dict_get k d <> NaN -> In k (map fst d).
Proof.
  intros H. destruct (in_dec string_dec k (map fst d)) as [Hin|Hn]; [exact Hin|].
  now apply dict_get_absent in Hn.
Qed.

Lemma records_table_cells (records : list (list (string * value))) (column : string) :
  map (cell (columns (records_table records)) column) (rows (records_table records))
  = map (pd.dict_get column) records.
Proof.
  simpl rows. rewrite map_map. apply map_ext_in. intros d Hd.
  now apply records_table_cell.
Qed.

Lemma records_table_flattenable (records : list (list (string * value)))
  (column : string) :
  records <> [] ->
  forallb (fun d => is_nonempty_list_of_objects (pd.dict_get column d)) records = true ->
  flattenable (records_table records) column = true.
Proof.
  intros Hne Hall. unfold flattenable.
  rewrite records_table_cells.
  assert (Hl : forallb is_nonempty_list_of_objects (map (pd.dict_get column) records)
               = true).
  { rewrite forallb_forall in *. intros v Hv.
    apply in_map_iff in Hv as (d & <- & Hd). now apply Hall. }
  rewrite Hl, andb_true_r.
  apply andb_true_iff. split; [apply unique_keys_unique|].
  unfold has_column. apply existsb_eqb_In. simpl. apply unique_keys_In.
  destruct records as [|d records]; [congruence|].
  exists d. split; [now left|]. apply dict_get_present.
  simpl in Hall. apply andb_true_iff in Hall as [Hd _].
  now destruct (pd.dict_get column d).
Qed.

Lemma flat_map_length_sum {A B : Type} (f : A -> list B) (l : list A) :
  Z.of_nat (List.length (flat_map f l))
  = fold_right Z.add 0%Z (map (fun x => Z.of_nat (List.length (f x))) l).
Proof.
  induction l as [|x l IH]; simpl; [reflexivity|].
  rewrite length_app, <- IH. lia.
Qed.

Lemma flattened_records_rows (records : list (list (string * value)))
  (column : string) :
  Z.of_nat (nrows (flattened (records_table records) column))
  = nested_count column records.
Proof.
  unfold nrows, flattened, nested_count. cbn [rows].
  rewrite flat_map_length_sum.
  change (rows (records_table records))
    with (map (pd.record_cells (pd.unique_keys records)) records).
  rewrite map_map. f_equal. apply map_ext_in. intros d Hd.
  rewrite length_map. do 3 f_equal.
  exact (records_table_cell records column d Hd).
Qed.

(** X17: from the answer to the flattened table. When an operation that
    flattens a column is answered with a status that is no error and a
    non-empty JSON array of objects, each of which has under that column a
    non-empty list of objects, it returns the table of these objects
    flattened: one row for every nested object, so as many rows as there are
    nested objects in the whole answer. *)
Theorem flattening_operation_returns {lib : DateLibrary}
  (network : string -> option Response) (self : NILUClient) (c : call)
  (column url : string) (response : Response)
  (records : list (list (string * value))) :
  flattened_column c = Some column ->
  requests self c = [url] ->
  network url = Some response ->
  is_error_status (status_code response) = false ->
  body response = Some (VList (map VDict records)) ->
  records <> [] ->
  forallb (fun d => is_nonempty_list_of_objects (pd.dict_get column d)) records = true ->
  perform network self c
  = ([url], Returns (flattened (records_table records) column))
  /\ Z.of_nat (nrows (flattened (records_table records) column))
     = nested_count column records.
Proof.
  intros Ec Er En Es Eb Hne Hall.
  split; [|apply flattened_records_rows].
  rewrite perform_eq, Er, En. f_equal.
  unfold respond, raise_for_status.
  fold (is_error_status (status_code response)). rewrite Es. simpl.
  unfold response_json. rewrite Eb. simpl.
  rewrite from_records_objects. simpl.
  unfold post_process. rewrite Ec.
  apply flattenable_Returns. now apply records_table_flattenable.
Qed.

Lemma flattening_operation_returns_witness :
  perform (lib := pandas_ns)
          (constant_network
             (mkResponse 200 (Some (VList (map VDict
                [[("component", VStr "NO2");
                  ("aqis", VList [VDict [("value", VNum 1)];
                                  VDict [("value", VNum 2)]])]])))))
          __init__ (GetAirQualityIndex PNone PNone)
  = (["https://api.nilu.no/lookup/aqis?"],
     Returns {| columns := ["component"; "value"];
                rows := [[VStr "NO2"; VNum 1]; [VStr "NO2"; VNum 2]] |}).
Proof.
  apply (proj1 (flattening_operation_returns (lib := pandas_ns)
                  (constant_network
                     (mkResponse 200 (Some (VList (map VDict
                        [[("component", VStr "NO2");
                          ("aqis", VList [VDict [("value", VNum 1)];
                                          VDict [("value", VNum 2)]])]])))))
                  __init__ (GetAirQualityIndex PNone PNone) "aqis"
                  "https://api.nilu.no/lookup/aqis?"
                  (mkResponse 200 (Some (VList (map VDict
                     [[("component", VStr "NO2");
                       ("aqis", VList [VDict [("value", VNum 1)];
                                       VDict [("value", VNum 2)]])]]))))
                  [[("component", VStr "NO2");
                    ("aqis", VList [VDict [("value", VNum 1)];
                                    VDict [("value", VNum 2)]])]]
                  eq_refl eq_refl eq_refl eq_refl eq_refl
                  (fun E => nil_cons (eq_sym E)) eq_refl)).
Defined.
